(** * charmhelpers.fetch: package sources, package installation and the
      remote-source dispatcher

    A shallow embedding of [charmhelpers/fetch/__init__.py].  Python values
    that travel through the module untyped (decoded configuration values,
    what a handler returns) are the inductive [pyval]; exceptions are the
    inductive [exn]; every call that leaves the module (a child process, the
    log, a file written, a handler method) is recorded as an [event].

    A computation of type [M A] reads the events that happened before it
    started and yields the events it adds together with either a value or
    the exception it raised. *)

From Stdlib Require Import List String Ascii ZArith Bool Arith Lia.
Import ListNotations.
Local Open Scope string_scope.
Local Open Scope list_scope.

(** ** Python values *)

(** The values the module inspects dynamically: [None], [True]/[False],
    integers, byte strings, lists, and any other object (opaque, truthy,
    without a length).  Dictionaries (what a YAML mapping decodes to) and
    floats are left out; a property that depends on the kind of a decoded
    value names the kinds it covers. *)
#[warnings="-register-all"]
Inductive pyval : Type :=
| PyNone
| PyBool (b : bool)
| PyInt (z : Z)
| PyStr (s : string)
| PyList (l : list pyval)
| PyObj (id : nat).

(** [bool(v)]: the truth value Python gives to [v] in [if v], [not v] and
    [a or b]. *)
Definition truthy (v : pyval) : bool :=
  match v with
  | PyNone => false
  | PyBool b => b
  | PyInt z => negb (Z.eqb z 0)
  | PyStr s => negb (Nat.eqb (String.length s) 0)
  | PyList l => negb (Nat.eqb (List.length l) 0)
  | PyObj _ => true
  end.

(** [v is True]: identity with the singleton [True]; no string, number or
    other object is identical to it. *)
Definition is_True (v : pyval) : bool :=
  match v with
  | PyBool true => true
  | _ => false
  end.

(** [v is None]. *)
Definition is_None (v : pyval) : bool :=
  match v with
  | PyNone => true
  | _ => false
  end.

(** [isinstance(v, basestring)]. *)
Definition is_basestring (v : pyval) : bool :=
  match v with
  | PyStr _ => true
  | _ => false
  end.

(** [type(v).__name__], as it appears in the interpreter's messages. *)
Definition type_name (v : pyval) : string :=
  match v with
  | PyNone => "NoneType"
  | PyBool _ => "bool"
  | PyInt _ => "int"
  | PyStr _ => "str"
  | PyList _ => "list"
  | PyObj _ => "object"
  end.

(** ** Exceptions *)

Inductive exn : Type :=
| SourceConfigError (msg : string)
| UnhandledSource (msg : string)
| TypeError (msg : string)
| AttributeError (msg : string)
| KeyError (key : string)
| IndexError (msg : string)
| ValueError (msg : string)
| CalledProcessError (returncode : Z) (cmd : list string)
| ImportError (msg : string)
| OtherError (name msg : string).

Inductive result (A : Type) : Type :=
| Ok (a : A)
| Raise (e : exn).
Arguments Ok {A} a.
Arguments Raise {A} e.

(** ** Handler objects *)

(** A fetch handler: [can_handle(source)] answers [True] or a string that
    says why not; [install(source)] returns the path installed to or raises.
    Handlers are stateless, so both are functions of the source alone;
    [hname] is the name the object prints with.  [can_handle] is taken to
    answer: a [can_handle] that raises is not a handler of this type, and
    what is proved of the dispatcher is proved for handlers whose
    [can_handle] returns. *)
Record Handler : Type := {
  hname : string;
  can_handle : string -> pyval;
  install : string -> result pyval
}.

(** ** Events *)

(** [subprocess.call] ignores the exit status, [subprocess.check_call]
    raises on a non-zero one. *)
Inductive proc_kind : Type := Call | CheckCall.

Inductive event : Type :=
| EvSubprocess (kind : proc_kind) (cmd : list pyval)
| EvLog (message : string) (level : option string)
| EvWrite (path content : string)
| EvAddSource (source key : pyval)
| EvCanHandle (handler : Handler) (source : string)
| EvInstall (handler : Handler) (source : string).

(** ** The computation monad *)

Definition M (A : Type) : Type := list event -> list event * result A.

Definition ret {A} (a : A) : M A := fun _ => ([], Ok a).

Definition raise {A} (e : exn) : M A := fun _ => ([], Raise e).

Definition emit (e : event) : M unit := fun _ => ([e], Ok tt).

Definition lift {A} (r : result A) : M A := fun _ => ([], r).

Definition bind {A B} (m : M A) (f : A -> M B) : M B :=
  fun hist =>
    match m hist with
    | (es, Ok a) =>
        match f a (hist ++ es) with
        | (es', r) => (es ++ es', r)
        end
    | (es, Raise e) => (es, Raise e)
    end.

Declare Scope py_scope.
Delimit Scope py_scope with py.
Notation "x <- m ;; k" := (bind m (fun x => k))
  (at level 61, m at next level, right associativity) : py_scope.
Notation "m ;; k" := (bind m (fun _ => k))
  (at level 61, right associativity) : py_scope.
Local Open Scope py_scope.

(** [try: m  except UnhandledSource: h]. Any other exception propagates. *)
Definition except_UnhandledSource {A} (m : M A) (h : M A) : M A :=
  fun hist =>
    match m hist with
    | (es, Raise (UnhandledSource _)) =>
        match h (hist ++ es) with
        | (es', r) => (es ++ es', r)
        end
    | other => other
    end.

(** [for x in xs: body x]. *)
Fixpoint for_each {A} (xs : list A) (body : A -> M unit) : M unit :=
  match xs with
  | [] => ret tt
  | x :: rest => body x ;; for_each rest body
  end.

(** [for x in xs: acc = body x acc], for a loop that rebinds one local. *)
Fixpoint for_fold {A S} (xs : list A) (acc : S) (body : A -> S -> M S) : M S :=
  match xs with
  | [] => ret acc
  | x :: rest => acc' <- body x acc ;; for_fold rest acc' body
  end.

(** [[x for x in xs if test x]], the tests running in list order. *)
Fixpoint comprehension_if {A} (xs : list A) (test : A -> M bool) : M (list A) :=
  match xs with
  | [] => ret []
  | x :: rest =>
      keep <- test x ;;
      kept <- comprehension_if rest test ;;
      ret (if keep then x :: kept else kept)
  end.

(** ** The world outside the module *)

(** A package of the apt cache: [current_ver] is [None] or a version
    object.  Version objects are always true in a boolean context, so only
    the presence of one matters. *)
Record Package : Type := {
  pkg_name : string;
  current_ver : option string
}.

(** The collaborators the module calls.  Each may answer differently as the
    run proceeds, so each sees the events so far.
    - [run_process]: the exit status of a child process, or the exception
      raised when it cannot be started;
    - [apt_Cache]: the package cache built by [apt_pkg.Cache()]; looking up
      an unknown name raises [KeyError];
    - [lsb_release]: [charmhelpers.core.host.lsb_release()], a dictionary;
    - [config]: [charmhelpers.core.hookenv.config(name)];
    - [safe_load]: [yaml.safe_load];
    - [open_for_writing]: whether [open(path, 'w')] succeeds. *)
Record Env : Type := {
  run_process : list event -> list string -> result Z;
  apt_Cache : list event -> string -> option Package;
  lsb_release : list event -> list (string * string);
  config : list event -> string -> result pyval;
  safe_load : pyval -> result pyval;
  open_for_writing : list event -> string -> result unit
}.

(** Modelled from the spec: [charmhelpers.core.hookenv.log] is not among the
    sources; the spec treats OS logging as an external collaborator that
    records a message with an optional level, which is what this does. *)
Definition log (message : string) (level : option string) : M unit :=
  emit (EvLog message level).

(** ** Package operations *)

(** [filter_installed_packages(packages)]: the body of the [try] is the
    cache lookup and [p.current_ver or _pkgs.append(package)]; the
    [KeyError] branch logs and appends. *)
Definition filter_installed_packages (E : Env) (packages : list string)
  : M (list string) :=
  fun hist =>
    let cache := apt_Cache E hist in
    for_fold packages []
      (fun package _pkgs =>
         match cache package with
         | Some p =>
             match current_ver p with
             | Some _ => ret _pkgs
             | None => ret (_pkgs ++ [package])
             end
         | None =>
             log ("Package " ++ package ++ " has no installation candidate.")
                 (Some "WARNING") ;;
             ret (_pkgs ++ [package])
         end) hist.

(** ** Strings, the way Python's [str] methods treat them *)

Definition nl : string := String (ascii_of_nat 10) EmptyString.

(** [c in s]. *)
Fixpoint str_contains (c : ascii) (s : string) : bool :=
  match s with
  | EmptyString => false
  | String a rest => Ascii.eqb a c || str_contains c rest
  end.

(** [s.split(c, 1)] when [c] occurs in [s]: the text before the first [c]
    and the text after it. *)
Fixpoint split_first (c : ascii) (s : string) : option (string * string) :=
  match s with
  | EmptyString => None
  | String a rest =>
      if Ascii.eqb a c then Some (EmptyString, rest)
      else match split_first c rest with
           | Some (l, r) => Some (String a l, r)
           | None => None
           end
  end.

(** [s.split(c)[-1]]: the text after the last [c], all of [s] when there is
    none. *)
Fixpoint split_last (c : ascii) (s : string) : string :=
  match s with
  | EmptyString => EmptyString
  | String a rest =>
      if str_contains c rest then split_last c rest
      else if Ascii.eqb a c then rest
      else s
  end.

(** [s.rsplit(c, 1)] when [c] occurs in [s]: the text before the last [c]
    and the text after it. *)
Fixpoint rsplit_last (c : ascii) (s : string) : option (string * string) :=
  match s with
  | EmptyString => None
  | String a rest =>
      match rsplit_last c rest with
      | Some (l, r) => Some (String a l, r)
      | None => if Ascii.eqb a c then Some (EmptyString, rest) else None
      end
  end.

Definition hex_digit (n : nat) : ascii :=
  match n with
  | 0 => "0" | 1 => "1" | 2 => "2" | 3 => "3" | 4 => "4" | 5 => "5"
  | 6 => "6" | 7 => "7" | 8 => "8" | 9 => "9" | 10 => "a" | 11 => "b"
  | 12 => "c" | 13 => "d" | 14 => "e" | _ => "f"
  end%char.

(** [repr(s)] for a byte string: single quotes unless the text has a single
    quote and no double quote; the quote and the backslash escaped, tab,
    newline and carriage return by letter, every other byte outside
    [0x20..0x7e] as [\xNN]. *)
Definition repr_char (quote c : ascii) : string :=
  let n := nat_of_ascii c in
  if Ascii.eqb c quote || Ascii.eqb c "\"%char then String "\"%char (String c EmptyString)
  else if Nat.eqb n 9 then "\t"
  else if Nat.eqb n 10 then "\n"
  else if Nat.eqb n 13 then "\r"
  else if Nat.ltb n 32 || Nat.leb 127 n
       then String "\"%char (String "x"%char
              (String (hex_digit (n / 16)) (String (hex_digit (n mod 16)) EmptyString)))
  else String c EmptyString.

Fixpoint repr_chars (quote : ascii) (s : string) : string :=
  match s with
  | EmptyString => EmptyString
  | String c rest => repr_char quote c ++ repr_chars quote rest
  end.

Definition double_quote : ascii := ascii_of_nat 34.

Definition repr_str (s : string) : string :=
  let quote :=
    if str_contains "'"%char s && negb (str_contains double_quote s)
    then double_quote else "'"%char in
  String quote (repr_chars quote s ++ String quote EmptyString).

(** [str(names)] for a list of byte strings. *)
Definition str_of_names (names : list string) : string :=
  "[" ++ String.concat ", " (map repr_str names) ++ "]".

(** ** Child processes and files *)

(** The argument vector of a command, when every element is a string. *)
Fixpoint argv_of (cmd : list pyval) : option (list string) :=
  match cmd with
  | [] => Some []
  | PyStr s :: rest =>
      match argv_of rest with
      | Some args => Some (s :: args)
      | None => None
      end
  | _ :: _ => None
  end.

(** [subprocess.call(cmd)] and [subprocess.check_call(cmd)].  A command with
    an element that is not a string cannot be executed ([TypeError]);
    [check_call] turns a non-zero exit status into [CalledProcessError]. *)
Definition subprocess (E : Env) (kind : proc_kind) (cmd : list pyval) : M unit :=
  emit (EvSubprocess kind cmd) ;;
  match argv_of cmd with
  | None => raise (TypeError "execv() arg 2 must contain only strings")
  | Some argv =>
      fun hist =>
        match run_process E hist argv with
        | Raise e => ([], Raise e)
        | Ok status =>
            match kind with
            | Call => ([], Ok tt)
            | CheckCall =>
                if Z.eqb status 0 then ([], Ok tt)
                else ([], Raise (CalledProcessError status argv))
            end
        end
  end.

(** [with open(path, 'w') as f: f.write(content)]. *)
Definition write_file (E : Env) (path content : string) : M unit :=
  (fun hist => ([], open_for_writing E hist path)) ;;
  emit (EvWrite path content).

(** [d[key]] on a dictionary with string keys. *)
Fixpoint dict_get (d : list (string * string)) (key : string) : result string :=
  match d with
  | [] => Raise (KeyError key)
  | (k, v) :: rest => if String.eqb k key then Ok v else dict_get rest key
  end.

(** The [packages] argument of [apt_install] and [apt_purge]: one name (a
    [basestring]) or a list of names. *)
Inductive packages_arg : Type :=
| OnePackage (name : string)
| Packages (names : list string).

Definition str_of_packages (p : packages_arg) : string :=
  match p with
  | OnePackage name => name
  | Packages names => str_of_names names
  end.

Definition cmd_packages (p : packages_arg) : list pyval :=
  match p with
  | OnePackage name => [PyStr name]
  | Packages names => map PyStr names
  end.

(** [apt_install(packages, options=None, fatal=False)]. *)
Definition apt_install (E : Env) (packages : packages_arg)
    (options : option (list string)) (fatal : bool) : M unit :=
  let options :=
    match options with
    | Some (o :: os) => o :: os
    | _ => []
    end in
  let cmd := [PyStr "apt-get"; PyStr "-y"] ++ map PyStr options
             ++ [PyStr "install"] ++ cmd_packages packages in
  log ("Installing " ++ str_of_packages packages ++ " with options: "
       ++ str_of_names options) None ;;
  if fatal then subprocess E CheckCall cmd else subprocess E Call cmd.

(** [apt_update(fatal=False)]. *)
Definition apt_update (E : Env) (fatal : bool) : M unit :=
  let cmd := [PyStr "apt-get"; PyStr "update"] in
  if fatal then subprocess E CheckCall cmd else subprocess E Call cmd.

(** [apt_purge(packages, fatal=False)]. *)
Definition apt_purge (E : Env) (packages : packages_arg) (fatal : bool) : M unit :=
  let cmd := [PyStr "apt-get"; PyStr "-y"; PyStr "purge"] ++ cmd_packages packages in
  log ("Purging " ++ str_of_packages packages) None ;;
  if fatal then subprocess E CheckCall cmd else subprocess E Call cmd.

(** ** Source registration *)

(** [CLOUD_ARCHIVE.format(pocket)]. *)
Definition CLOUD_ARCHIVE (pocket : string) : string :=
  "# Ubuntu Cloud Archive" ++ nl
  ++ "deb http://ubuntu-cloud.archive.canonical.com/ubuntu " ++ pocket ++ " main" ++ nl.

(** [PROPOSED_POCKET.format(release)]. *)
Definition PROPOSED_POCKET (release : string) : string :=
  "# Proposed" ++ nl
  ++ "deb http://archive.ubuntu.com/ubuntu " ++ release
  ++ "-proposed main universe multiverse restricted" ++ nl.

(** [add_source(source, key=None)].  [source.startswith] exists only on a
    string; the three branches are tried in the order of the [if]/[elif]
    chain, and a source that matches none adds nothing.  The key, when it is
    true in a boolean context, is imported whatever the branch. *)
Definition add_source (E : Env) (source key : pyval) : M unit :=
  match source with
  | PyStr s =>
      (if String.prefix "ppa:" s || String.prefix "http:" s then
         subprocess E CheckCall [PyStr "add-apt-repository"; PyStr "--yes"; source]
       else if String.prefix "cloud:" s then
         needed <- filter_installed_packages E ["ubuntu-cloud-keyring"] ;;
         apt_install E (Packages needed) None true ;;
         let pocket := split_last ":"%char s in
         write_file E "/etc/apt/sources.list.d/cloud-archive.list"
                    (CLOUD_ARCHIVE pocket)
       else if String.eqb s "proposed" then
         release <- (fun hist => ([], dict_get (lsb_release E hist) "DISTRIB_CODENAME")) ;;
         write_file E "/etc/apt/sources.list.d/proposed.list"
                    (PROPOSED_POCKET release)
       else ret tt) ;;
      if truthy key then
        subprocess E CheckCall [PyStr "apt-key"; PyStr "import"; key]
      else ret tt
  | _ =>
      raise (AttributeError
               ("'" ++ type_name source ++ "' object has no attribute 'startswith'"))
  end.

(** ** Configuration-driven source setup *)

(** [len(v)]. *)
Definition py_len (v : pyval) : result nat :=
  match v with
  | PyStr s => Ok (String.length s)
  | PyList l => Ok (List.length l)
  | _ => Raise (TypeError ("object of type '" ++ type_name v ++ "' has no len()"))
  end.

(** [v[i]] for an index [i >= 0]. *)
Definition py_getitem (v : pyval) (i : nat) : result pyval :=
  match v with
  | PyStr s =>
      match String.get i s with
      | Some c => Ok (PyStr (String c EmptyString))
      | None => Raise (IndexError "string index out of range")
      end
  | PyList l =>
      match nth_error l i with
      | Some x => Ok x
      | None => Raise (IndexError "list index out of range")
      end
  | _ => Raise (TypeError ("'" ++ type_name v ++ "' object has no attribute '__getitem__'"))
  end.

(** [configure_sources(update=False, sources_var='install_sources',
    keys_var='install_keys')].  [add_source] is looked up by name when the
    call happens, so the callee is a parameter here; the module's own
    [add_source] is the intended argument.  Each call is recorded with its
    arguments before the callee runs. *)
Definition configure_sources (E : Env) (add_source : pyval -> pyval -> M unit)
    (update : bool) (sources_var keys_var : string) : M unit :=
  let call_add_source source key :=
    emit (EvAddSource source key) ;; add_source source key in
  raw_sources <- (fun hist => ([], config E hist sources_var)) ;;
  sources <- lift (safe_load E raw_sources) ;;
  keys <- (fun hist => ([], config E hist keys_var)) ;;
  keys <- (if negb (is_None keys) then lift (safe_load E keys) else ret keys) ;;
  (if is_basestring sources && (is_None keys || is_basestring keys) then
     call_add_source sources keys
   else
     n_sources <- lift (py_len sources) ;;
     n_keys <- lift (py_len keys) ;;
     (if negb (Nat.eqb n_sources n_keys) then
        raise (SourceConfigError "Install sources and keys lists are different lengths")
      else ret tt) ;;
     for_each (seq 0 n_sources)
       (fun src_num =>
          source <- lift (py_getitem sources src_num) ;;
          key <- lift (py_getitem keys src_num) ;;
          call_add_source source key)) ;;
  if update then apt_update E true else ret tt.

(** ** Fetch handlers *)

Definition FETCH_HANDLERS : list string :=
  [ "charmhelpers.fetch.archiveurl.ArchiveUrlFetchHandler";
    "charmhelpers.fetch.bzrurl.BzrUrlFetchHandler" ].

(** The exceptions the loop of [plugins] catches:
    [except (ImportError, AttributeError)]. *)
Definition missing_plugin (e : exn) : bool :=
  match e with
  | ImportError _ | AttributeError _ => true
  | _ => false
  end.

(** [plugins(fetch_handlers=None)].  [find_class package classname] stands
    for the body of the [try],
    [getattr(importlib.import_module(package), classname)()]: the instance,
    or the exception that the import, the attribute lookup or the
    constructor raised.  [ImportError] and [AttributeError] are logged and
    the reference skipped; any other exception leaves [plugins].  A name
    without a dot cannot be unpacked into package and class. *)
Definition plugins (find_class : string -> string -> result Handler)
    (fetch_handlers : option (list string)) : M (list Handler) :=
  let fetch_handlers :=
    match fetch_handlers with
    | Some (h :: hs) => h :: hs
    | _ => FETCH_HANDLERS
    end in
  for_fold fetch_handlers []
    (fun handler_name plugin_list =>
       match rsplit_last "."%char handler_name with
       | None => raise (ValueError "need more than 1 value to unpack")
       | Some (package, classname) =>
           match find_class package classname with
           | Ok handler => ret (plugin_list ++ [handler])
           | Raise e =>
               if missing_plugin e then
                 log ("FetchHandler " ++ handler_name ++ " not found, skipping plugin") None ;;
                 ret plugin_list
               else raise e
           end
       end).

(** [install_remote(source)].  [plugins] is looked up by name when the call
    happens, so it is a parameter.  The comprehension asks every handler
    first; the loop then runs over all the handlers kept, rebinding
    [installed_to] at each [install] that returns. *)
Definition install_remote (plugins : M (list Handler)) (source : string) : M pyval :=
  all_handlers <- plugins ;;
  handlers <- comprehension_if all_handlers
                (fun h =>
                   emit (EvCanHandle h source) ;;
                   ret (is_True (can_handle h source))) ;;
  installed_to <- for_fold handlers PyNone
                    (fun handler installed_to =>
                       except_UnhandledSource
                         (emit (EvInstall handler source) ;;
                          lift (install handler source))
                         (ret installed_to)) ;;
  if negb (truthy installed_to) then
    raise (UnhandledSource ("No handler found for source " ++ source))
  else ret installed_to.

(** ** The standard library's URL functions *)

(** Python 2.7's [urlparse] module for byte strings, which is not part of
    this repository: [urlsplit], [urlparse], [urlunsplit] and [urlunparse]
    with their helper functions and scheme tables, as in the later releases
    of CPython 2.7 (fragment and query are split off whatever the scheme,
    and a scheme is not taken from what could be a port number). *)
Module Urlparse.
Local Open Scope string_scope.

Definition uses_netloc : list string :=
  [ "ftp"; "http"; "gopher"; "nntp"; "telnet"; "imap"; "wais"; "file";
    "mms"; "https"; "shttp"; "snews"; "prospero"; "rtsp"; "rtspu";
    "rsync"; ""; "svn"; "svn+ssh"; "sftp"; "nfs"; "git"; "git+ssh" ].

Definition uses_params : list string :=
  [ "ftp"; "hdl"; "prospero"; "http"; "imap"; "https"; "shttp"; "rtsp";
    "rtspu"; "sip"; "sips"; "mms"; ""; "sftp"; "tel" ].

Definition str_in (s : string) (l : list string) : bool :=
  existsb (String.eqb s) l.

Definition is_upper (c : ascii) : bool :=
  let n := nat_of_ascii c in Nat.leb 65 n && Nat.leb n 90.
Definition is_lower (c : ascii) : bool :=
  let n := nat_of_ascii c in Nat.leb 97 n && Nat.leb n 122.
Definition is_digit (c : ascii) : bool :=
  let n := nat_of_ascii c in Nat.leb 48 n && Nat.leb n 57.

(** [c in scheme_chars]: letters, digits, [+], [-] and [.]. *)
Definition scheme_char (c : ascii) : bool :=
  is_lower c || is_upper c || is_digit c
  || Ascii.eqb c "+" || Ascii.eqb c "-" || Ascii.eqb c ".".

Fixpoint str_forallb (p : ascii -> bool) (s : string) : bool :=
  match s with
  | EmptyString => true
  | String c rest => p c && str_forallb p rest
  end.

(** [s.lower()]. *)
Fixpoint lower (s : string) : string :=
  match s with
  | EmptyString => EmptyString
  | String c rest =>
      String (if is_upper c then ascii_of_nat (nat_of_ascii c + 32) else c)
             (lower rest)
  end.

(** [s.find(c, start)]: the first index at or after [start] where [c]
    stands, [None] for Python's [-1]. *)
Fixpoint find (c : ascii) (s : string) (start : nat) : option nat :=
  match s with
  | EmptyString => None
  | String a rest =>
      match start with
      | O => if Ascii.eqb a c then Some 0
             else option_map S (find c rest 0)
      | S start' => option_map S (find c rest start')
      end
  end.

(** [s.rfind(c)]. *)
Fixpoint rfind (c : ascii) (s : string) : option nat :=
  match s with
  | EmptyString => None
  | String a rest =>
      match rfind c rest with
      | Some i => Some (S i)
      | None => if Ascii.eqb a c then Some 0 else None
      end
  end.

(** [s[:i]] and [s[i:]]. *)
Definition upto (i : nat) (s : string) : string := String.substring 0 i s.
Definition from (i : nat) (s : string) : string :=
  String.substring i (String.length s - i) s.

Definition _splitnetloc (url : string) (start : nat) : string * string :=
  let delim :=
    fold_left
      (fun delim c =>
         match find c url start with
         | Some wdelim => Nat.min delim wdelim
         | None => delim
         end)
      ["/"; "?"; "#"]%char (String.length url) in
  (String.substring start (delim - start) url, from delim url).

Definition _splitparams (url : string) : string * string :=
  if str_contains "/" url then
    match find ";" url (match rfind "/" url with Some j => j | None => 0 end) with
    | None => (url, "")
    | Some i => (upto i url, from (S i) url)
    end
  else
    match find ";" url 0 with
    | Some i => (upto i url, from (S i) url)
    | None =>
        (* [i = -1]: [url[:-1]] and [url[0:]] *)
        (upto (String.length url - 1) url, url)
    end.

Record SplitResult : Type := {
  sr_scheme : string; sr_netloc : string; sr_path : string;
  sr_query : string; sr_fragment : string
}.

(** The tail shared by both exits of [urlsplit]: network location, then
    fragment, then query. *)
Definition split_rest (scheme url : string) : result SplitResult :=
  let '(netloc, url) :=
    if String.eqb (upto 2 url) "//" then _splitnetloc url 2 else ("", url) in
  if (str_contains "[" netloc && negb (str_contains "]" netloc))
     || (str_contains "]" netloc && negb (str_contains "[" netloc))
  then Raise (ValueError "Invalid IPv6 URL")
  else
    let '(url, fragment) :=
      match split_first "#" url with
      | Some (u, f) => (u, f)
      | None => (url, "")
      end in
    let '(url, query) :=
      match split_first "?" url with
      | Some (u, q) => (u, q)
      | None => (url, "")
      end in
    Ok {| sr_scheme := scheme; sr_netloc := netloc; sr_path := url;
          sr_query := query; sr_fragment := fragment |}.

Definition urlsplit (url : string) : result SplitResult :=
  match find ":" url 0 with
  | Some (S i') =>
      let i := S i' in
      if String.eqb (upto i url) "http" then
        split_rest (lower (upto i url)) (from (S i) url)
      else if str_forallb scheme_char (upto i url) then
        let rest := from (S i) url in
        if Nat.eqb (String.length rest) 0
           || negb (str_forallb is_digit rest)
        then split_rest (lower (upto i url)) rest
        else split_rest "" url
      else split_rest "" url
  | _ => split_rest "" url
  end.

(** The six components, in the order of [ParseResult]. *)
Definition urlparse (url : string) : result (list string) :=
  match urlsplit url with
  | Raise e => Raise e
  | Ok r =>
      let '(path, params) :=
        if str_in (sr_scheme r) uses_params && str_contains ";" (sr_path r)
        then _splitparams (sr_path r)
        else (sr_path r, "") in
      Ok [sr_scheme r; sr_netloc r; path; params; sr_query r; sr_fragment r]
  end.

Definition nonempty (s : string) : bool := negb (Nat.eqb (String.length s) 0).

Definition urlunsplit (scheme netloc url query fragment : string) : string :=
  let url :=
    if nonempty netloc
       || (nonempty scheme && str_in scheme uses_netloc
           && negb (String.eqb (upto 2 url) "//"))
    then
      let url :=
        if nonempty url && negb (String.eqb (upto 1 url) "/")
        then "/" ++ url else url in
      "//" ++ netloc ++ url
    else url in
  let url := if nonempty scheme then scheme ++ ":" ++ url else url in
  let url := if nonempty query then url ++ "?" ++ query else url in
  let url := if nonempty fragment then url ++ "#" ++ fragment else url in
  url.

(** [urlunparse(data)] unpacks six components. *)
Definition urlunparse (data : list string) : result string :=
  match data with
  | [scheme; netloc; url; params; query; fragment] =>
      let url := if nonempty params then url ++ ";" ++ params else url in
      Ok (urlunsplit scheme netloc url query fragment)
  | _ => Raise (ValueError "wrong number of values to unpack")
  end.

End Urlparse.

(** ** The base handler *)

Module BaseFetchHandler.

(** [can_handle(self, source)]. *)
Definition can_handle (source : string) : pyval := PyStr "Wrong source type".

(** [install(self, source)]. *)
Definition install (source : string) : result pyval :=
  Raise (UnhandledSource ("Wrong source type " ++ source)).

(** [parse_url(self, url)]. *)
Definition parse_url (url : string) : result (list string) :=
  Urlparse.urlparse url.

(** [base_url(self, url)]: [parts[4:] = ['' for i in parts[4:]]] replaces
    everything from index 4 on by as many empty strings. *)
Definition base_url (url : string) : result string :=
  match parse_url url with
  | Raise e => Raise e
  | Ok parts =>
      let parts := firstn 4 parts ++ map (fun _ => "") (skipn 4 parts) in
      Urlparse.urlunparse parts
  end.

Definition handler : Handler :=
  Build_Handler "BaseFetchHandler" can_handle install.

End BaseFetchHandler.

(** ** Vocabulary of the properties *)

(** The handlers [install_remote] keeps: those whose [can_handle] answers
    the value [True]. *)
Definition eligible (hs : list Handler) (source : string) : list Handler :=
  filter (fun h => is_True (can_handle h source)) hs.

(** The package is in the cache and has no installed version. *)
Definition no_installed_version (cache : string -> option Package)
    (name : string) : bool :=
  match cache name with
  | Some p => match current_ver p with None => true | Some _ => false end
  | None => false
  end.

(** The package is not in the cache. *)
Definition absent_from_cache (cache : string -> option Package)
    (name : string) : bool :=
  match cache name with
  | Some _ => false
  | None => true
  end.

(** The warning logged for a package the cache does not know. *)
Definition no_candidate_warning (name : string) : event :=
  EvLog ("Package " ++ name ++ " has no installation candidate.") (Some "WARNING").

(** [install] returns, or raises the unhandled-source signal that the
    dispatcher catches. *)
Definition returns_or_unhandled (source : string) (h : Handler) : Prop :=
  match install h source with
  | Ok _ => True
  | Raise (UnhandledSource _) => True
  | Raise _ => False
  end.

(** The value [installed_to] holds after the loop has run over [handlers]:
    that of the last [install] that returned, [acc] when none did. *)
Definition last_returned (source : string) (handlers : list Handler)
    (acc : pyval) : pyval :=
  fold_left
    (fun acc h => match install h source with Ok v => v | Raise _ => acc end)
    handlers acc.

(** [install] does not deliver a path: it raises, or what it returns is
    empty. *)
Definition delivers_nothing (source : string) (h : Handler) : Prop :=
  match install h source with
  | Ok v => truthy v = false
  | Raise _ => True
  end.

(** The dispatch rule in the words of the specification: the first eligible
    handler whose [install] returns a non-empty path wins, that path is
    returned, and no later handler has [install] called. *)
Definition stops_at_first_success (plugins : M (list Handler))
    (source : string) (hist : list event) : Prop :=
  forall es0 hs pre h post path es r,
    plugins hist = (es0, Ok hs) ->
    eligible hs source = pre ++ h :: post ->
    Forall (delivers_nothing source) pre ->
    install h source = Ok path ->
    truthy path = true ->
    install_remote plugins source hist = (es, r) ->
    r = Ok path /\ forall h', In h' post -> ~ In (EvInstall h' source) es.

(** Handlers of the kind the test suite builds: one that declines with a
    reason, one that accepts and then raises the unhandled-source signal,
    and two that accept and install. *)
Definition declining : Handler :=
  {| hname := "h1";
     can_handle := fun _ => PyStr "Nope";
     install := fun _ => Ok (PyObj 1) |}.

Definition giving_up : Handler :=
  {| hname := "h2";
     can_handle := fun _ => PyBool true;
     install := fun _ => Raise (UnhandledSource "") |}.

Definition installing : Handler :=
  {| hname := "h3";
     can_handle := fun _ => PyBool true;
     install := fun _ => Ok (PyStr "foo") |}.

Definition installing_elsewhere : Handler :=
  {| hname := "h4";
     can_handle := fun _ => PyBool true;
     install := fun _ => Ok (PyStr "bar") |}.

(** The sources value [configure_sources] works on: what [safe_load] makes
    of the configuration value named [sources_var]. *)
Definition decoded_sources (E : Env) (hist : list event) (sources_var : string)
    (sources : pyval) : Prop :=
  exists raw, config E hist sources_var = Ok raw /\ safe_load E raw = Ok sources.

(** The keys value it works on: [None] when the configuration value is
    absent, otherwise what [safe_load] makes of it. *)
Definition decoded_keys (E : Env) (hist : list event) (keys_var : string)
    (keys : pyval) : Prop :=
  (config E hist keys_var = Ok PyNone /\ keys = PyNone)
  \/ (exists raw, config E hist keys_var = Ok raw /\ raw <> PyNone
                  /\ safe_load E raw = Ok keys).

(** A recorded call of the callee [add_source]. *)
Definition calling (add_source : pyval -> pyval -> M unit)
    (pair : pyval * pyval) : M unit :=
  emit (EvAddSource (fst pair) (snd pair)) ;; add_source (fst pair) (snd pair).

(** A stand-in for [add_source] that returns at once, as the patched
    function of the test suite does. *)
Definition patched_add_source (source key : pyval) : M unit := ret tt.

(** A world in which every child process exits with status 0, the package
    cache is empty, files open, and the configuration holds the values of
    [settings], which [safe_load] hands back as they are (the values are
    taken as already decoded). *)
Definition quiet_env (settings : list (string * pyval)) : Env :=
  {| run_process := fun _ _ => Ok 0%Z;
     apt_Cache := fun _ _ => None;
     lsb_release := fun _ => [("DISTRIB_CODENAME", "precise")];
     config := fun _ name =>
       Ok (match find (fun kv => String.eqb (fst kv) name) settings with
           | Some kv => snd kv
           | None => PyNone
           end);
     safe_load := fun v => Ok v;
     open_for_writing := fun _ _ => Ok tt |}.

(** The invocation of the repository-add tool with the raw source string. *)
Definition repository_add (source : string) : event :=
  EvSubprocess CheckCall [PyStr "add-apt-repository"; PyStr "--yes"; PyStr source].

(** The prefix table in the words of the specification, with its
    [http(s):] variant: a source that begins with [ppa:], [http:] or
    [https:] has the repository-add tool invoked with the raw string. *)
Definition adds_repository_for_http_and_https (E : Env) : Prop :=
  forall source key hist,
    String.prefix "ppa:" source = true
    \/ String.prefix "http:" source = true
    \/ String.prefix "https:" source = true ->
    In (repository_add source) (fst (add_source E (PyStr source) key hist)).


(** The package cache of the test suite: [vim] is installed, [emacs] is
    known and not installed, nothing else is known. *)
Definition FAKE_APT_CACHE (name : string) : option Package :=
  if String.eqb name "vim" then
    Some {| pkg_name := "vim"; current_ver := Some "2:7.3.547-6ubuntu5" |}
  else if String.eqb name "emacs" then
    Some {| pkg_name := "emacs"; current_ver := None |}
  else None.

Definition test_env : Env :=
  {| run_process := fun _ _ => Ok 0%Z;
     apt_Cache := fun _ => FAKE_APT_CACHE;
     lsb_release := fun _ => [("DISTRIB_CODENAME", "precise")];
     config := fun _ _ => Ok PyNone;
     safe_load := fun v => Ok v;
     open_for_writing := fun _ _ => Ok tt |}.

(** A class lookup in which only the module [b] is missing. *)
Definition find_class_without_b (package classname : string) : result Handler :=
  if String.eqb package "b" then Raise (ImportError "No module named b")
  else Ok (Build_Handler (package ++ "." ++ classname)
                         BaseFetchHandler.can_handle
                         BaseFetchHandler.install).






(** ** Further vocabulary *)

(** [install_from_config(config_var_name)].  [config] is looked up by name
    when the call happens, so it is a parameter: called without a name it
    gives the whole charm configuration, a dictionary from option names to
    the source strings; indexing it with an unknown name raises
    [KeyError]. *)
Definition install_from_config (config : M (list (string * string)))
    (plugins : M (list Handler)) (config_var_name : string) : M pyval :=
  charm_config <- config ;;
  source <- lift (dict_get charm_config config_var_name) ;;
  install_remote plugins source.

(** A handler that accepts and then fails with an error of its own. *)
Definition crashing : Handler :=
  {| hname := "h5";
     can_handle := fun _ => PyBool true;
     install := fun _ => Raise (OtherError "IOError" "disk full") |}.

(** What [check_call] makes of a child process: the exception that kept it
    from starting, [CalledProcessError] for a non-zero exit status, a normal
    return otherwise. *)
Definition check_call_outcome (started : result Z) (argv : list string)
  : result unit :=
  match started with
  | Raise e => Raise e
  | Ok status =>
      if Z.eqb status 0 then Ok tt else Raise (CalledProcessError status argv)
  end.

(** What [call] makes of it: the exit status is dropped. *)
Definition call_outcome (started : result Z) : result unit :=
  match started with
  | Raise e => Raise e
  | Ok _ => Ok tt
  end.

(** The import of a key by the key tool. *)
Definition key_import (key : pyval) : event :=
  EvSubprocess CheckCall [PyStr "apt-key"; PyStr "import"; key].

(** The names in a [packages] argument. *)
Definition package_names (p : packages_arg) : list string :=
  match p with
  | OnePackage name => [name]
  | Packages names => names
  end.

(** A handler reference [package.classname]. *)
Definition dotted_name (ref : string * string) : string :=
  fst ref ++ "." ++ snd ref.

(** The message logged for a handler reference that does not resolve. *)
Definition not_found_log (name : string) : event :=
  EvLog ("FetchHandler " ++ name ++ " not found, skipping plugin") None.

(** Resolving the reference gives an instance, or fails with one of the
    two exceptions that [plugins] catches. *)
Definition resolves_or_is_missing
    (find_class : string -> string -> result Handler)
    (ref : string * string) : Prop :=
  match find_class (fst ref) (snd ref) with
  | Ok _ => True
  | Raise e => missing_plugin e = true
  end.

(** The instances of the references that resolve, and the names of those
    that do not, both in the order of the references. *)
Definition found_handlers (find_class : string -> string -> result Handler)
    (refs : list (string * string)) : list Handler :=
  flat_map (fun ref => match find_class (fst ref) (snd ref) with
                       | Ok h => [h]
                       | Raise _ => []
                       end) refs.

Definition missing_names (find_class : string -> string -> result Handler)
    (refs : list (string * string)) : list string :=
  map dotted_name
      (filter (fun ref => match find_class (fst ref) (snd ref) with
                          | Ok _ => false
                          | Raise _ => true
                          end) refs).

(** A class lookup like [find_class_without_b] in which, as with
    [importlib.import_module], an empty module name is an error of its
    own. *)
Definition find_class_checked (package classname : string) : result Handler :=
  if String.eqb package "" then Raise (ValueError "Empty module name")
  else find_class_without_b package classname.

(** The class lookup of the test suite: the first module is missing, the
    second lacks the class, every other reference resolves. *)
Definition find_class_of_test (package classname : string) : result Handler :=
  if String.eqb package "a" then Raise (ImportError "No module named a")
  else if String.eqb package "b" then
    Raise (AttributeError "'module' object has no attribute 'foo'")
  else Ok (Build_Handler (package ++ "." ++ classname)
                         BaseFetchHandler.can_handle
                         BaseFetchHandler.install).

(** What [yaml.safe_load] makes of the settings used below: the empty
    document is [None], the plain scalar [12345678] is an integer, any other
    text here is a plain scalar and stays a string; a value that is not text
    cannot be loaded. *)
Definition load_setting (v : pyval) : result pyval :=
  match v with
  | PyStr s =>
      if String.eqb s "" then Ok PyNone
      else if String.eqb s "12345678" then Ok (PyInt 12345678)
      else Ok (PyStr s)
  | _ => Raise (AttributeError
                  ("'" ++ type_name v ++ "' object has no attribute 'read'"))
  end.

(** A world whose configuration holds the texts of [settings] ([None] for
    an option that is not set), decoded by [load_setting]; otherwise as
    [quiet_env]. *)
Definition charm_env (settings : list (string * string)) : Env :=
  {| run_process := fun _ _ => Ok 0%Z;
     apt_Cache := fun _ _ => None;
     lsb_release := fun _ => [("DISTRIB_CODENAME", "precise")];
     config := fun _ name =>
       Ok (match find (fun kv => String.eqb (fst kv) name) settings with
           | Some kv => PyStr (snd kv)
           | None => PyNone
           end);
     safe_load := load_setting;
     open_for_writing := fun _ _ => Ok tt |}.

(** The one-character strings of a string, as indexing yields them. *)
Definition chars (s : string) : list pyval :=
  map (fun c => PyStr (String c EmptyString)) (list_ascii_of_string s).

(** A world in which every child process exits with [status], the package
    cache is [cache], the release information is [release], and the
    configuration is as in [quiet_env]. *)
Definition world (status : Z) (cache : string -> option Package)
    (release : list (string * string)) (settings : list (string * pyval)) : Env :=
  {| run_process := fun _ _ => Ok status;
     apt_Cache := fun _ => cache;
     lsb_release := fun _ => release;
     config := config (quiet_env settings);
     safe_load := fun v => Ok v;
     open_for_writing := fun _ _ => Ok tt |}.

(** * Properties *)

(** ** Laws of the computation monad *)

Lemma bind_Ok {A B} (m : M A) (f : A -> M B) hist es a :
  m hist = (es, Ok a) ->
  bind m f hist = (let (es', r) := f a (hist ++ es) in (es ++ es', r)).
Proof. intros H. unfold bind. rewrite H. reflexivity. Qed.

Lemma bind_Raise {A B} (m : M A) (f : A -> M B) hist es e :
  m hist = (es, Raise e) -> bind m f hist = (es, Raise e).
Proof. intros H. unfold bind. rewrite H. reflexivity. Qed.

Lemma bind_ret {A B} (a : A) (f : A -> M B) hist :
  bind (ret a) f hist = f a hist.
Proof.
  unfold bind, ret. rewrite app_nil_r. destruct (f a hist); reflexivity.
Qed.

Lemma bind_emit {B} (e : event) (f : unit -> M B) hist :
  bind (emit e) f hist = (let (es, r) := f tt (hist ++ [e]) in (e :: es, r)).
Proof. reflexivity. Qed.

Lemma bind_lift_Ok {A B} (a : A) (f : A -> M B) hist :
  bind (lift (Ok a)) f hist = f a hist.
Proof. exact (bind_ret a f hist). Qed.

Lemma bind_lift_Raise {A B} (e : exn) (f : A -> M B) hist :
  bind (lift (Raise e)) f hist = ([], Raise e).
Proof. reflexivity. Qed.

(** ** Package operations *)

Section FilterInstalled.

Variable cache : string -> option Package.

(** One turn of the loop of [filter_installed_packages]. *)
Let turn (package : string) (_pkgs : list string) : M (list string) :=
  match cache package with
  | Some p =>
      match current_ver p with
      | Some _ => ret _pkgs
      | None => ret (_pkgs ++ [package])
      end
  | None =>
      log ("Package " ++ package ++ " has no installation candidate.")
          (Some "WARNING") ;;
      ret (_pkgs ++ [package])
  end.

Lemma filter_loop packages : forall acc hist,
  for_fold packages acc turn hist =
  (map no_candidate_warning (filter (absent_from_cache cache) packages),
   Ok (acc ++ filter (fun name => no_installed_version cache name
                                  || absent_from_cache cache name) packages)).
Proof.
  induction packages as [|p rest IH]; intros acc hist; simpl.
  - now rewrite app_nil_r.
  - unfold turn at 1, no_installed_version, absent_from_cache.
    destruct (cache p) as [pk|] eqn:Hp.
    + destruct (current_ver pk); rewrite bind_ret, IH; simpl.
      * reflexivity.
      * now rewrite <- app_assoc.
    + unfold log, bind at 1. unfold bind at 1. unfold emit, ret at 1.
      simpl app. rewrite IH. simpl. now rewrite <- app_assoc.
Qed.

End FilterInstalled.

(** C8: for every list of package names, [filter_installed_packages]
    returns exactly the names that have no installed version or are absent
    from the package cache, in the order of the input; each absent package
    is logged as a warning (and is among the names returned). *)
Theorem filter_installed_packages_spec (E : Env) (packages : list string)
    (hist : list event) :
  let cache := apt_Cache E hist in
  filter_installed_packages E packages hist =
  (map no_candidate_warning (filter (absent_from_cache cache) packages),
   Ok (filter (fun name => no_installed_version cache name
                           || absent_from_cache cache name) packages)).
Proof.
  intros cache. unfold filter_installed_packages.
  exact (filter_loop cache packages [] hist).
Qed.

(** ** The dispatcher *)

Section Dispatch.

Variable source : string.

(** The test of the comprehension and the body of the loop of
    [install_remote]. *)
Let ask (h : Handler) : M bool :=
  emit (EvCanHandle h source) ;; ret (is_True (can_handle h source)).

Let attempt (handler : Handler) (installed_to : pyval) : M pyval :=
  except_UnhandledSource
    (emit (EvInstall handler source) ;; lift (install handler source))
    (ret installed_to).

Lemma ask_all hs : forall hist,
  comprehension_if hs ask hist =
  (map (fun h => EvCanHandle h source) hs, Ok (eligible hs source)).
Proof.
  induction hs as [|h rest IH]; intros hist; simpl; [reflexivity|].
  unfold ask at 1. unfold bind at 1. unfold bind at 1. unfold emit, ret at 1.
  simpl app. unfold bind at 1. rewrite IH. unfold ret. simpl.
  rewrite app_nil_r. now destruct (is_True (can_handle h source)).
Qed.

Lemma attempt_returns h acc hist v :
  install h source = Ok v ->
  attempt h acc hist = ([EvInstall h source], Ok v).
Proof.
  intros H. unfold attempt, except_UnhandledSource, bind, emit, lift.
  now rewrite H.
Qed.

Lemma attempt_unhandled h acc hist m :
  install h source = Raise (UnhandledSource m) ->
  attempt h acc hist = ([EvInstall h source], Ok acc).
Proof.
  intros H. unfold attempt, except_UnhandledSource, bind, emit, lift, ret.
  now rewrite H.
Qed.

Lemma attempt_events h acc hist :
  exists r, attempt h acc hist = ([EvInstall h source], r).
Proof.
  unfold attempt, except_UnhandledSource, bind, emit, lift, ret.
  destruct (install h source) as [v|[]]; simpl; eauto.
Qed.

Lemma loop_soft handlers : forall acc hist,
  Forall (returns_or_unhandled source) handlers ->
  for_fold handlers acc attempt hist =
  (map (fun h => EvInstall h source) handlers,
   Ok (last_returned source handlers acc)).
Proof.
  induction handlers as [|h rest IH]; intros acc hist Hall; [reflexivity|].
  inversion Hall as [|? ? Hh Hrest]; subst.
  simpl for_fold. unfold last_returned. simpl fold_left.
  unfold returns_or_unhandled in Hh.
  destruct (install h source) as [v|e] eqn:Hi.
  - rewrite (bind_Ok _ _ _ _ _ (attempt_returns h acc hist v Hi)).
    rewrite IH by assumption. reflexivity.
  - destruct e; try contradiction.
    rewrite (bind_Ok _ _ _ _ _ (attempt_unhandled h acc hist msg Hi)).
    rewrite IH by assumption. reflexivity.
Qed.

Lemma loop_app pre : forall post acc hist,
  Forall (returns_or_unhandled source) pre ->
  for_fold (pre ++ post) acc attempt hist =
  (let (es, r) := for_fold post (last_returned source pre acc) attempt
                    (hist ++ map (fun h => EvInstall h source) pre) in
   (map (fun h => EvInstall h source) pre ++ es, r)).
Proof.
  induction pre as [|h rest IH]; intros post acc hist Hall.
  - simpl. rewrite app_nil_r. now destruct (for_fold post acc attempt hist).
  - inversion Hall as [|? ? Hh Hrest]; subst.
    simpl app. simpl for_fold. unfold last_returned. simpl fold_left.
    unfold returns_or_unhandled in Hh.
    destruct (install h source) as [v|e] eqn:Hi.
    + rewrite (bind_Ok _ _ _ _ _ (attempt_returns h acc hist v Hi)).
      rewrite IH by assumption. simpl map. rewrite <- app_assoc. simpl app.
      fold (last_returned source rest v).
      now destruct (for_fold post _ attempt _).
    + destruct e; try contradiction.
      rewrite (bind_Ok _ _ _ _ _ (attempt_unhandled h acc hist msg Hi)).
      rewrite IH by assumption. simpl map. rewrite <- app_assoc. simpl app.
      fold (last_returned source rest acc).
      now destruct (for_fold post _ attempt _).
Qed.

Lemma loop_events handlers : forall acc hist es r,
  for_fold handlers acc attempt hist = (es, r) ->
  forall e, In e es -> exists h, In h handlers /\ e = EvInstall h source.
Proof.
  induction handlers as [|h rest IH]; intros acc hist es r Hrun e He.
  - inversion Hrun; subst. contradiction.
  - simpl in Hrun. destruct (attempt_events h acc hist) as [r1 Hr1].
    unfold bind in Hrun. rewrite Hr1 in Hrun.
    destruct r1 as [acc'|ex].
    + destruct (for_fold rest acc' attempt (hist ++ [EvInstall h source]))
        as [es' r'] eqn:Hrest.
      inversion Hrun; subst. destruct He as [<-|He].
      * exists h. split; [now left|reflexivity].
      * destruct (IH _ _ _ _ Hrest e He) as [h' [Hin Heq]].
        exists h'. split; [now right|assumption].
    + inversion Hrun; subst. destruct He as [<-|[]].
      exists h. split; [now left|reflexivity].
Qed.

(** The run of [install_remote] once [plugins()] has returned [hs]: the
    questions, then the loop, then the final test of [installed_to]. *)
Lemma install_remote_run plugins hist es0 hs :
  plugins hist = (es0, Ok hs) ->
  install_remote plugins source hist =
  (let asked := map (fun h => EvCanHandle h source) hs in
   let (es, r) := for_fold (eligible hs source) PyNone attempt
                    (hist ++ es0 ++ asked) in
   (es0 ++ asked ++ es,
    match r with
    | Ok installed_to =>
        if negb (truthy installed_to)
        then Raise (UnhandledSource ("No handler found for source " ++ source))
        else Ok installed_to
    | Raise e => Raise e
    end)).
Proof.
  intros Hp. unfold install_remote.
  rewrite (bind_Ok _ _ _ _ _ Hp).
  rewrite (bind_Ok _ _ _ _ _ (ask_all hs (hist ++ es0))).
  unfold bind at 1. rewrite <- app_assoc.
  fold attempt.
  destruct (for_fold (eligible hs source) PyNone attempt _) as [es [v|e]];
    simpl.
  - destruct (truthy v); simpl; now rewrite !app_nil_r.
  - reflexivity.
Qed.

End Dispatch.

Lemma is_True_iff (v : pyval) : is_True v = true <-> v = PyBool true.
Proof.
  split; [|now intros ->].
  destruct v as [| [|] | | | |]; simpl; congruence.
Qed.

Lemma eligible_In hs source h :
  In h (eligible hs source) <-> In h hs /\ can_handle h source = PyBool true.
Proof.
  unfold eligible. rewrite filter_In. now rewrite is_True_iff.
Qed.

Lemma last_returned_app source pre post acc :
  last_returned source (pre ++ post) acc =
  last_returned source post (last_returned source pre acc).
Proof. unfold last_returned. apply fold_left_app. Qed.

Lemma last_returned_unhandled source post : forall acc,
  Forall (fun h => exists m, install h source = Raise (UnhandledSource m)) post ->
  last_returned source post acc = acc.
Proof.
  induction post as [|h rest IH]; intros acc Hall; [reflexivity|].
  inversion Hall as [|? ? [m Hm] Hrest]; subst.
  unfold last_returned. simpl. rewrite Hm. now apply IH.
Qed.

Lemma unhandled_soft source hs :
  Forall (fun h => exists m, install h source = Raise (UnhandledSource m)) hs ->
  Forall (returns_or_unhandled source) hs.
Proof.
  apply Forall_impl. intros h [m Hm]. unfold returns_or_unhandled.
  now rewrite Hm.
Qed.

(** When every eligible handler returns or raises the unhandled-source
    signal, all of them have [install] called, in order, and the last value
    returned decides the outcome. *)
Lemma install_remote_soft (plugins : M (list Handler)) (source : string)
    (hist es0 : list event) (hs : list Handler) :
  plugins hist = (es0, Ok hs) ->
  Forall (returns_or_unhandled source) (eligible hs source) ->
  install_remote plugins source hist =
  (es0 ++ map (fun h => EvCanHandle h source) hs
       ++ map (fun h => EvInstall h source) (eligible hs source),
   let installed_to := last_returned source (eligible hs source) PyNone in
   if truthy installed_to then Ok installed_to
   else Raise (UnhandledSource ("No handler found for source " ++ source))).
Proof.
  intros Hp Hall.
  rewrite (install_remote_run source plugins hist es0 hs Hp). cbv zeta.
  rewrite (loop_soft source _ PyNone _ Hall).
  now destruct (truthy _).
Qed.

(** C1, as amended: when the [install] of every eligible handler returns
    or raises the unhandled-source signal, [install_remote] calls [install]
    on every eligible handler in list order, whether or not an earlier one
    has succeeded, and what it returns is the result of the last handler
    whose [install] returned (every handler after it raising the signal),
    provided that result is non-empty; an empty one raises the
    unhandled-source error. *)
Theorem install_remote_last_return_wins
    (plugins : M (list Handler)) (source : string) (hist es0 : list event)
    (hs : list Handler) :
  plugins hist = (es0, Ok hs) ->
  Forall (returns_or_unhandled source) (eligible hs source) ->
  exists r,
    install_remote plugins source hist =
    (es0 ++ map (fun h => EvCanHandle h source) hs
         ++ map (fun h => EvInstall h source) (eligible hs source), r)
    /\ forall pre h post v,
         eligible hs source = pre ++ h :: post ->
         install h source = Ok v ->
         Forall (fun h' => exists m, install h' source = Raise (UnhandledSource m))
                post ->
         r = if truthy v then Ok v
             else Raise (UnhandledSource ("No handler found for source " ++ source)).
Proof.
  intros Hp Hall.
  rewrite (install_remote_soft plugins source hist es0 hs Hp Hall). cbv zeta.
  eexists. split; [reflexivity|].
  intros pre h post v Hel Hv Hpost.
  assert (Hlast : last_returned source (eligible hs source) PyNone = v).
  { rewrite Hel, last_returned_app.
    change (h :: post) with ([h] ++ post). rewrite last_returned_app.
    rewrite (last_returned_unhandled source post _ Hpost).
    unfold last_returned at 1. simpl fold_left. now rewrite Hv. }
  now rewrite Hlast.
Qed.

(** C2: with H1 declining by a string, H2 accepting and raising the
    unhandled-source signal from [install], and H3 accepting and installing,
    registered in that order, [install_remote(url)] asks H1, H2 and H3, never
    calls H1's [install], calls H2's and then H3's, and returns what H3
    returned. *)
Theorem install_remote_three_handlers
    (plugins : M (list Handler)) (url : string) (hist es0 : list event)
    (H1 H2 H3 : Handler) (why m : string) (path : pyval) :
  plugins hist = (es0, Ok [H1; H2; H3]) ->
  can_handle H1 url = PyStr why ->
  can_handle H2 url = PyBool true ->
  install H2 url = Raise (UnhandledSource m) ->
  can_handle H3 url = PyBool true ->
  install H3 url = Ok path ->
  truthy path = true ->
  let calls := [EvCanHandle H1 url; EvCanHandle H2 url; EvCanHandle H3 url;
                EvInstall H2 url; EvInstall H3 url] in
  install_remote plugins url hist = (es0 ++ calls, Ok path)
  /\ ~ In (EvInstall H1 url) calls.
Proof.
  intros Hp Hc1 Hc2 Hi2 Hc3 Hi3 Ht calls.
  assert (Hel : eligible [H1; H2; H3] url = [H2; H3]).
  { unfold eligible. simpl. now rewrite Hc1, Hc2, Hc3. }
  split.
  - rewrite (install_remote_soft plugins url hist es0 [H1; H2; H3] Hp).
    + rewrite Hel. unfold last_returned. simpl. now rewrite Hi2, Hi3, Ht.
    + rewrite Hel. repeat constructor; unfold returns_or_unhandled.
      * now rewrite Hi2.
      * now rewrite Hi3.
  - unfold calls. simpl. intros [H|[H|[H|[H|[H|[]]]]]]; try discriminate H.
    + injection H as ->. rewrite Hc1 in Hc2. discriminate.
    + injection H as ->. rewrite Hc1 in Hc3. discriminate.
Qed.

(** C3: when no handler's [can_handle] answers [True], or every eligible
    handler's [install] raises the unhandled-source signal, [install_remote]
    raises the unhandled-source error whose message names the source (every
    eligible handler having been tried); and a handler that raises the signal
    is passed over: the next eligible handler has [install] called right
    after it. *)
Theorem install_remote_unhandled
    (plugins : M (list Handler)) (source : string) (hist es0 : list event)
    (hs : list Handler) :
  plugins hist = (es0, Ok hs) ->
  let asked := map (fun h => EvCanHandle h source) hs in
  ((forall h, In h hs -> can_handle h source <> PyBool true)
   \/ (forall h, In h (eligible hs source) ->
                 exists m, install h source = Raise (UnhandledSource m)) ->
   install_remote plugins source hist =
   (es0 ++ asked ++ map (fun h => EvInstall h source) (eligible hs source),
    Raise (UnhandledSource ("No handler found for source " ++ source))))
  /\ (forall pre h next post m,
        eligible hs source = pre ++ h :: next :: post ->
        Forall (returns_or_unhandled source) pre ->
        install h source = Raise (UnhandledSource m) ->
        exists es r,
          install_remote plugins source hist =
          (es0 ++ asked ++ map (fun h => EvInstall h source) pre
               ++ EvInstall h source :: EvInstall next source :: es, r)).
Proof.
  intros Hp asked. split.
  - intros Hnone.
    assert (Hall : Forall (fun h => exists m,
                      install h source = Raise (UnhandledSource m))
                    (eligible hs source)).
    { apply Forall_forall. destruct Hnone as [Hno|Hraise]; [|assumption].
      intros h Hin. apply eligible_In in Hin. destruct Hin as [Hin Hc].
      now destruct (Hno h Hin). }
    rewrite (install_remote_soft plugins source hist es0 hs Hp
               (unhandled_soft source _ Hall)).
    cbv zeta. now rewrite (last_returned_unhandled source _ PyNone Hall).
  - intros pre h next post m Hel Hpre Hm.
    rewrite (install_remote_run source plugins hist es0 hs Hp). cbv zeta.
    fold asked. rewrite Hel.
    change (pre ++ h :: next :: post) with (pre ++ [h] ++ next :: post).
    rewrite app_assoc.
    assert (Hsoft : Forall (returns_or_unhandled source) (pre ++ [h])).
    { apply Forall_app. split; [assumption|]. constructor; [|constructor].
      unfold returns_or_unhandled. now rewrite Hm. }
    rewrite (loop_app source (pre ++ [h]) (next :: post) PyNone _ Hsoft).
    simpl for_fold.
    match goal with
    | |- context [bind ?a ?k ?hh] =>
        destruct (attempt_events source next
                    (last_returned source (pre ++ [h]) PyNone) hh) as [r1 Hr1];
        unfold bind at 1
    end.
    cbv zeta in Hr1. rewrite Hr1.
    destruct r1 as [acc|e].
    + match goal with
      | |- context [for_fold post acc ?b ?hh] =>
          destruct (for_fold post acc b hh) as [es' r']
      end.
      exists es'. eexists. rewrite map_app. simpl. rewrite <- !app_assoc.
      reflexivity.
    + exists []. eexists. rewrite map_app. simpl. rewrite <- !app_assoc.
      reflexivity.
Qed.

(** C4: [install_remote] calls [install] only on handlers whose
    [can_handle(source)] answered exactly the value [True]; a handler that
    answered anything else, a string included, never has [install] called. *)
Theorem install_remote_only_True
    (plugins : M (list Handler)) (source : string) (hist es0 es : list event)
    (hs : list Handler) (r : result pyval) :
  plugins hist = (es0, Ok hs) ->
  install_remote plugins source hist = (es, r) ->
  exists es1,
    es = es0 ++ es1
    /\ (forall h src, In (EvInstall h src) es1 ->
          src = source /\ In h hs /\ can_handle h source = PyBool true)
    /\ (forall h, In h hs -> can_handle h source <> PyBool true ->
          ~ In (EvInstall h source) es1)
    /\ (forall h why, In h hs -> can_handle h source = PyStr why ->
          ~ In (EvInstall h source) es1).
Proof.
  intros Hp Hrun.
  rewrite (install_remote_run source plugins hist es0 hs Hp) in Hrun.
  cbv zeta in Hrun.
  match type of Hrun with
  | context [for_fold ?l ?a ?b ?hh] =>
      destruct (for_fold l a b hh) as [es' r'] eqn:Hloop
  end.
  injection Hrun as <- _.
  exists (map (fun h => EvCanHandle h source) hs ++ es').
  assert (Honly : forall h src,
             In (EvInstall h src)
                (map (fun h => EvCanHandle h source) hs ++ es') ->
             src = source /\ In h hs /\ can_handle h source = PyBool true).
  { intros h src Hin. apply in_app_or in Hin. destruct Hin as [Hin|Hin].
    - apply in_map_iff in Hin. destruct Hin as [h' [Heq _]]. discriminate.
    - destruct (loop_events source _ _ _ _ _ Hloop _ Hin) as [h' [Hel Heq]].
      injection Heq as -> ->. apply eligible_In in Hel. now split. }
  split; [reflexivity|]. split; [exact Honly|]. split.
  - intros h Hin Hno Hcalled. now destruct (Honly h source Hcalled) as [_ [_ Hc]].
  - intros h why Hin Hwhy Hcalled.
    destruct (Honly h source Hcalled) as [_ [_ Hc]]. congruence.
Qed.

(** C1, as the specification words it, fails: with two eligible handlers
    that both install, [install] is called on the second after the first has
    succeeded, and the path returned is the second one's. *)
Lemma install_remote_does_not_stop :
  install_remote (ret [installing; installing_elsewhere])
                 "http://example.com/foo.tgz" [] =
  ([EvCanHandle installing "http://example.com/foo.tgz";
    EvCanHandle installing_elsewhere "http://example.com/foo.tgz";
    EvInstall installing "http://example.com/foo.tgz";
    EvInstall installing_elsewhere "http://example.com/foo.tgz"],
   Ok (PyStr "bar"))
  /\ ~ stops_at_first_success (ret [installing; installing_elsewhere])
                              "http://example.com/foo.tgz" [].
Proof.
  split; [reflexivity|].
  intros Hstop.
  destruct (Hstop [] [installing; installing_elsewhere] [] installing
                  [installing_elsewhere] (PyStr "foo") _ _
                  eq_refl eq_refl (Forall_nil _) eq_refl eq_refl eq_refl)
    as [Hret _].
  discriminate Hret.
Qed.

Lemma install_remote_last_return_wins_witness :
  let hs := [installing; giving_up; installing_elsewhere; giving_up] in
  exists r,
    install_remote (ret hs) "lp:branch-name" [] =
    ([] ++ map (fun h => EvCanHandle h "lp:branch-name") hs
        ++ map (fun h => EvInstall h "lp:branch-name")
               (eligible hs "lp:branch-name"), r)
    /\ forall pre h post v,
         eligible hs "lp:branch-name" = pre ++ h :: post ->
         install h "lp:branch-name" = Ok v ->
         Forall (fun h' => exists m,
                    install h' "lp:branch-name" = Raise (UnhandledSource m))
                post ->
         r = if truthy v then Ok v
             else Raise (UnhandledSource
                           ("No handler found for source " ++ "lp:branch-name")).
Proof.
  intros hs.
  apply (install_remote_last_return_wins (ret hs) "lp:branch-name" [] [] hs).
  - reflexivity.
  - repeat constructor.
Defined.

(** In that run the last handler whose [install] returned is the third of
    the list, and its path is what comes back, after all four have been
    tried. *)
Example install_remote_last_return_wins_run :
  install_remote (ret [installing; giving_up; installing_elsewhere; giving_up])
                 "lp:branch-name" [] =
  ([EvCanHandle installing "lp:branch-name";
    EvCanHandle giving_up "lp:branch-name";
    EvCanHandle installing_elsewhere "lp:branch-name";
    EvCanHandle giving_up "lp:branch-name";
    EvInstall installing "lp:branch-name";
    EvInstall giving_up "lp:branch-name";
    EvInstall installing_elsewhere "lp:branch-name";
    EvInstall giving_up "lp:branch-name"],
   Ok (PyStr "bar")).
Proof. reflexivity. Qed.

Lemma install_remote_three_handlers_witness :
  let url := "http://example.com/foo.tar.gz" in
  let calls := [EvCanHandle declining url; EvCanHandle giving_up url;
                EvCanHandle installing url;
                EvInstall giving_up url; EvInstall installing url] in
  install_remote (ret [declining; giving_up; installing]) url [] =
  ([] ++ calls, Ok (PyStr "foo"))
  /\ ~ In (EvInstall declining url) calls.
Proof.
  exact (install_remote_three_handlers
           (ret [declining; giving_up; installing])
           "http://example.com/foo.tar.gz" [] []
           declining giving_up installing "Nope" "" (PyStr "foo")
           eq_refl eq_refl eq_refl eq_refl eq_refl eq_refl eq_refl).
Defined.

Lemma install_remote_unhandled_witness :
  let source := "git://example.com/foo.tar.gz" in
  let hs := [declining; giving_up; giving_up] in
  install_remote (ret hs) source [] =
  ([] ++ map (fun h => EvCanHandle h source) hs
      ++ map (fun h => EvInstall h source) (eligible hs source),
   Raise (UnhandledSource ("No handler found for source " ++ source)))
  /\ exists es r,
       install_remote (ret hs) source [] =
       ([] ++ map (fun h => EvCanHandle h source) hs
           ++ map (fun h => EvInstall h source) []
           ++ EvInstall giving_up source :: EvInstall giving_up source :: es, r).
Proof.
  intros source hs.
  destruct (install_remote_unhandled (ret hs) source [] [] hs eq_refl)
    as [Hall Hnext].
  split.
  - apply Hall. right. intros h Hin.
    destruct Hin as [<-|[<-|[]]]; exists ""; reflexivity.
  - apply (Hnext [] giving_up giving_up [] "").
    + reflexivity.
    + constructor.
    + reflexivity.
Defined.

Lemma install_remote_only_True_witness :
  let source := "http://example.com/foo.zip" in
  let hs := [declining; giving_up; installing] in
  exists es1,
    [EvCanHandle declining source; EvCanHandle giving_up source;
     EvCanHandle installing source;
     EvInstall giving_up source; EvInstall installing source] = [] ++ es1
    /\ (forall h src, In (EvInstall h src) es1 ->
          src = source /\ In h hs /\ can_handle h source = PyBool true)
    /\ (forall h, In h hs -> can_handle h source <> PyBool true ->
          ~ In (EvInstall h source) es1)
    /\ (forall h why, In h hs -> can_handle h source = PyStr why ->
          ~ In (EvInstall h source) es1).
Proof.
  exact (install_remote_only_True
           (ret [declining; giving_up; installing])
           "http://example.com/foo.zip" [] [] _
           [declining; giving_up; installing] (Ok (PyStr "foo"))
           eq_refl eq_refl).
Defined.

(** ** Configuration-driven source setup *)

Lemma bind_silent {A B} (m : M A) (f : A -> M B) hist a :
  m hist = ([], Ok a) -> bind m f hist = f a hist.
Proof.
  intros H. unfold bind. rewrite H, app_nil_r. now destruct (f a hist).
Qed.

Lemma bind_ext {A B} (m m' : M A) (f g : A -> M B) hist :
  m hist = m' hist ->
  (forall a h, f a h = g a h) -> bind m f hist = bind m' g hist.
Proof.
  intros Hm H. unfold bind. rewrite Hm.
  destruct (m' hist) as [es [a|e]]; [|reflexivity].
  now rewrite H.
Qed.

Section ConfigureSources.

Variable E : Env.
Variable add_source : pyval -> pyval -> M unit.
Variable update : bool.

(** What [configure_sources] does once both values are decoded. *)
Let decoded_run (sources keys : pyval) : M unit :=
  (if is_basestring sources && (is_None keys || is_basestring keys) then
     calling add_source (sources, keys)
   else
     n_sources <- lift (py_len sources) ;;
     n_keys <- lift (py_len keys) ;;
     (if negb (Nat.eqb n_sources n_keys) then
        raise (SourceConfigError "Install sources and keys lists are different lengths")
      else ret tt) ;;
     for_each (seq 0 n_sources)
       (fun src_num =>
          source <- lift (py_getitem sources src_num) ;;
          key <- lift (py_getitem keys src_num) ;;
          calling add_source (source, key))) ;;
  if update then apt_update E true else ret tt.

Lemma configure_sources_decoded sources_var keys_var hist sources keys :
  decoded_sources E hist sources_var sources ->
  decoded_keys E hist keys_var keys ->
  configure_sources E add_source update sources_var keys_var hist =
  decoded_run sources keys hist.
Proof.
  intros [raw [Hc Hl]] Hk. unfold configure_sources.
  rewrite (bind_silent _ _ hist raw) by now rewrite Hc.
  rewrite Hl, bind_lift_Ok.
  destruct Hk as [[Hn ->]|[rawk [Hck [Hne Hlk]]]].
  - rewrite (bind_silent _ _ hist PyNone) by now rewrite Hn.
    simpl negb. cbv iota. rewrite bind_ret. reflexivity.
  - rewrite (bind_silent _ _ hist rawk) by now rewrite Hck.
    replace (negb (is_None rawk)) with true by (destruct rawk; simpl; congruence).
    rewrite Hlk, bind_lift_Ok. reflexivity.
Qed.

(** The index loop over two lists of equal length visits the pairs of
    elements at equal positions, in order. *)
Lemma index_loop rest_s : forall rest_k pre_s pre_k hist,
  List.length pre_s = List.length pre_k ->
  List.length rest_s = List.length rest_k ->
  for_each (seq (List.length pre_s) (List.length rest_s))
    (fun src_num =>
       source <- lift (py_getitem (PyList (pre_s ++ rest_s)) src_num) ;;
       key <- lift (py_getitem (PyList (pre_k ++ rest_k)) src_num) ;;
       calling add_source (source, key)) hist =
  for_each (combine rest_s rest_k) (calling add_source) hist.
Proof.
  induction rest_s as [|s rest IH]; intros rest_k pre_s pre_k hist Hpre Hrest.
  - reflexivity.
  - destruct rest_k as [|k rest_k]; [discriminate|].
    simpl List.length. simpl seq. simpl combine. simpl for_each.
    rewrite (nth_error_app2 pre_s) by lia. rewrite Nat.sub_diag.
    rewrite (nth_error_app2 pre_k) by lia.
    replace (List.length pre_s - List.length pre_k) with 0 by lia.
    simpl nth_error.
    apply bind_ext; [now rewrite !bind_lift_Ok|]. intros _ h.
    replace (S (List.length pre_s)) with (List.length (pre_s ++ [s]))
      by (rewrite length_app; simpl; lia).
    specialize (IH rest_k (pre_s ++ [s]) (pre_k ++ [k]) h).
    rewrite <- !app_assoc in IH. simpl in IH. apply IH.
    + rewrite !length_app. simpl. lia.
    + simpl in Hrest. lia.
Qed.

End ConfigureSources.

(** C5: when the decoded sources and keys are both lists and their lengths
    differ, [configure_sources] raises [SourceConfigError] and does not call
    [add_source] at all: nothing has happened when it raises. *)
Theorem configure_sources_length_mismatch
    (E : Env) (add_source : pyval -> pyval -> M unit) (update : bool)
    (sources_var keys_var : string) (hist : list event)
    (sources keys : list pyval) :
  decoded_sources E hist sources_var (PyList sources) ->
  decoded_keys E hist keys_var (PyList keys) ->
  List.length sources <> List.length keys ->
  configure_sources E add_source update sources_var keys_var hist =
  ([], Raise (SourceConfigError
                "Install sources and keys lists are different lengths"))
  /\ forall source key,
       ~ In (EvAddSource source key)
            (fst (configure_sources E add_source update sources_var keys_var hist)).
Proof.
  intros Hs Hk Hlen.
  assert (Hrun : configure_sources E add_source update sources_var keys_var hist =
                 ([], Raise (SourceConfigError
                      "Install sources and keys lists are different lengths"))).
  { rewrite (configure_sources_decoded E add_source update _ _ _ _ _ Hs Hk).
    cbv zeta. simpl is_basestring. simpl andb. cbv iota.
    apply bind_Raise. unfold py_len. rewrite !bind_lift_Ok.
    apply Nat.eqb_neq in Hlen. rewrite Hlen. reflexivity. }
  split; [exact Hrun|]. intros source key. rewrite Hrun. simpl. tauto.
Qed.

(** C10: when the decoded sources value is a list and the keys
    configuration value is absent ([None]), [configure_sources] raises the
    [TypeError] of [len(None)], not [SourceConfigError], and does not call
    [add_source]. *)
Theorem configure_sources_keys_absent
    (E : Env) (add_source : pyval -> pyval -> M unit) (update : bool)
    (sources_var keys_var : string) (hist : list event)
    (sources : list pyval) :
  decoded_sources E hist sources_var (PyList sources) ->
  config E hist keys_var = Ok PyNone ->
  configure_sources E add_source update sources_var keys_var hist =
  ([], Raise (TypeError "object of type 'NoneType' has no len()"))
  /\ (forall msg,
        snd (configure_sources E add_source update sources_var keys_var hist)
        <> Raise (SourceConfigError msg))
  /\ forall source key,
       ~ In (EvAddSource source key)
            (fst (configure_sources E add_source update sources_var keys_var hist)).
Proof.
  intros Hs Hk.
  assert (Hrun : configure_sources E add_source update sources_var keys_var hist =
                 ([], Raise (TypeError "object of type 'NoneType' has no len()"))).
  { rewrite (configure_sources_decoded E add_source update _ _ _ _ PyNone Hs)
      by (left; now split).
    reflexivity. }
  rewrite Hrun. simpl. repeat split; [discriminate|tauto].
Qed.

(** C6: with a single string for the sources and the keys absent or a single
    string, [configure_sources] calls [add_source] exactly once, with that
    pair; with lists of equal length it calls [add_source] once for each
    pair of elements at the same index, in list order; and when [update] is
    true, [apt_update(fatal=True)], which is [check_call] of
    [apt-get update], runs after all of these calls. *)
Theorem configure_sources_adds_each
    (E : Env) (add_source : pyval -> pyval -> M unit) (update : bool)
    (sources_var keys_var : string) (hist : list event) :
  (forall source keys,
     decoded_sources E hist sources_var (PyStr source) ->
     decoded_keys E hist keys_var keys ->
     keys = PyNone \/ (exists key, keys = PyStr key) ->
     configure_sources E add_source update sources_var keys_var hist =
     (calling add_source (PyStr source, keys) ;;
      if update then apt_update E true else ret tt) hist)
  /\ (forall sources keys,
        decoded_sources E hist sources_var (PyList sources) ->
        decoded_keys E hist keys_var (PyList keys) ->
        List.length sources = List.length keys ->
        configure_sources E add_source update sources_var keys_var hist =
        (for_each (combine sources keys) (calling add_source) ;;
         if update then apt_update E true else ret tt) hist)
  /\ apt_update E true =
     subprocess E CheckCall [PyStr "apt-get"; PyStr "update"].
Proof.
  split; [|split].
  - intros source keys Hs Hk Hone.
    rewrite (configure_sources_decoded E add_source update _ _ _ _ _ Hs Hk).
    destruct Hone as [->|[key ->]]; reflexivity.
  - intros sources keys Hs Hk Hlen.
    rewrite (configure_sources_decoded E add_source update _ _ _ _ _ Hs Hk).
    cbv zeta. simpl is_basestring. simpl andb. cbv iota.
    apply bind_ext; [|reflexivity].
    unfold py_len. rewrite !bind_lift_Ok.
    rewrite Hlen, Nat.eqb_refl. simpl negb. cbv iota. rewrite bind_ret.
    rewrite <- Hlen.
    exact (index_loop add_source sources keys [] [] hist eq_refl Hlen).
  - reflexivity.
Qed.

Lemma configure_sources_length_mismatch_witness :
  let E := quiet_env
             [("install_sources", PyList [PyStr "sourcea"; PyStr "sourceb"]);
              ("install_keys", PyList [PyStr "keya"])] in
  configure_sources E (add_source E) false "install_sources" "install_keys" [] =
  ([], Raise (SourceConfigError
                "Install sources and keys lists are different lengths"))
  /\ forall source key,
       ~ In (EvAddSource source key)
            (fst (configure_sources E (add_source E) false
                    "install_sources" "install_keys" [])).
Proof.
  intros E.
  apply (configure_sources_length_mismatch E (add_source E) false
           "install_sources" "install_keys" []
           [PyStr "sourcea"; PyStr "sourceb"] [PyStr "keya"]).
  - eexists. split; reflexivity.
  - right. eexists. split; [reflexivity|]. split; [discriminate|reflexivity].
  - simpl. lia.
Defined.

Lemma configure_sources_keys_absent_witness :
  let E := quiet_env
             [("install_sources", PyList [PyStr "sourcea"; PyStr "sourceb"])] in
  configure_sources E (add_source E) true "install_sources" "install_keys" [] =
  ([], Raise (TypeError "object of type 'NoneType' has no len()"))
  /\ (forall msg,
        snd (configure_sources E (add_source E) true
               "install_sources" "install_keys" [])
        <> Raise (SourceConfigError msg))
  /\ forall source key,
       ~ In (EvAddSource source key)
            (fst (configure_sources E (add_source E) true
                    "install_sources" "install_keys" [])).
Proof.
  intros E.
  apply (configure_sources_keys_absent E (add_source E) true
           "install_sources" "install_keys" []
           [PyStr "sourcea"; PyStr "sourceb"]).
  - eexists. split; reflexivity.
  - reflexivity.
Defined.

Lemma configure_sources_adds_each_witness :
  let one := quiet_env [("install_sources", PyStr "s")] in
  let two := quiet_env
               [("install_sources", PyList [PyStr "a"; PyStr "b"]);
                ("install_keys", PyList [PyStr "k"; PyNone])] in
  let refresh := EvSubprocess CheckCall [PyStr "apt-get"; PyStr "update"] in
  configure_sources one patched_add_source true
    "install_sources" "install_keys" [] =
  ([EvAddSource (PyStr "s") PyNone; refresh], Ok tt)
  /\ configure_sources two patched_add_source true
       "install_sources" "install_keys" [] =
     ([EvAddSource (PyStr "a") (PyStr "k"); EvAddSource (PyStr "b") PyNone;
       refresh], Ok tt).
Proof.
  intros one two refresh. split.
  - destruct (configure_sources_adds_each one patched_add_source true
                "install_sources" "install_keys" []) as [Hone _].
    rewrite (Hone "s" PyNone).
    + reflexivity.
    + eexists. split; reflexivity.
    + left. split; reflexivity.
    + now left.
  - destruct (configure_sources_adds_each two patched_add_source true
                "install_sources" "install_keys" []) as [_ [Heach _]].
    rewrite (Heach [PyStr "a"; PyStr "b"] [PyStr "k"; PyNone]).
    + reflexivity.
    + eexists. split; reflexivity.
    + right. eexists. split; [reflexivity|]. split; [discriminate|reflexivity].
    + reflexivity.
Defined.

(** The same two configurations with the module's own [add_source]: each
    recorded call is followed by what [add_source] does for that pair, and
    the refresh of the package index comes last. *)
Example configure_sources_with_add_source :
  let E := quiet_env
             [("install_sources",
               PyList [PyStr "ppa:foo"; PyStr "http://example.com/repo precise main"]);
              ("install_keys", PyList [PyNone; PyStr "a1b2c3d4"])] in
  configure_sources E (add_source E) true "install_sources" "install_keys" [] =
  ([EvAddSource (PyStr "ppa:foo") PyNone;
    repository_add "ppa:foo";
    EvAddSource (PyStr "http://example.com/repo precise main") (PyStr "a1b2c3d4");
    repository_add "http://example.com/repo precise main";
    EvSubprocess CheckCall [PyStr "apt-key"; PyStr "import"; PyStr "a1b2c3d4"];
    EvSubprocess CheckCall [PyStr "apt-get"; PyStr "update"]], Ok tt).
Proof. reflexivity. Qed.

(** ** Source registration *)

Lemma subprocess_events (E : Env) kind cmd hist :
  exists r, subprocess E kind cmd hist = ([EvSubprocess kind cmd], r).
Proof.
  unfold subprocess. rewrite bind_emit.
  destruct (argv_of cmd) as [argv|]; [|simpl; eauto].
  destruct (run_process E (hist ++ [EvSubprocess kind cmd]) argv) as [st|e];
    [|eauto].
  destruct kind; [eauto|]. destruct (Z.eqb st 0); eauto.
Qed.

Lemma prefix_app p : forall s,
  String.prefix p s = true -> exists rest, s = (p ++ rest)%string.
Proof.
  induction p as [|a p IH]; intros s H.
  - exists s. reflexivity.
  - destruct s as [|b s]; [discriminate|]. simpl in H.
    destruct (ascii_dec a b) as [<-|]; [|discriminate].
    destruct (IH s H) as [rest ->]. now exists rest.
Qed.

(** C7, as amended: for every source that begins with [ppa:] or [http:],
    the first thing [add_source] does is to invoke the repository-add tool
    with the raw source string; the branch for unrecognized sources is not
    taken.  A source that begins with [https:] matches no branch: the tool
    is never invoked for it and no file is written, and all [add_source]
    does is to import the key when one is given. *)
Theorem add_source_ppa_http (E : Env) (source : string) (key : pyval)
    (hist : list event) :
  (String.prefix "ppa:" source = true \/ String.prefix "http:" source = true ->
   exists es r,
     add_source E (PyStr source) key hist = (repository_add source :: es, r))
  /\ (String.prefix "https:" source = true ->
      add_source E (PyStr source) key hist =
      (if truthy key
       then subprocess E CheckCall [PyStr "apt-key"; PyStr "import"; key] hist
       else ([], Ok tt))
      /\ forall ev, In ev (fst (add_source E (PyStr source) key hist)) ->
           ev = EvSubprocess CheckCall [PyStr "apt-key"; PyStr "import"; key]).
Proof.
  split.
  - intros Hpre.
    assert (Hb : String.prefix "ppa:" source || String.prefix "http:" source
                 = true).
    { destruct Hpre as [->| ->]; [reflexivity|apply orb_true_r]. }
    unfold add_source. rewrite Hb.
    destruct (subprocess_events E CheckCall
                [PyStr "add-apt-repository"; PyStr "--yes"; PyStr source] hist)
      as [r Hr].
    unfold bind at 1. rewrite Hr. destruct r as [[]|e].
    + match goal with
      | |- context [(if truthy key then ?a else ?b) ?hh] =>
          destruct ((if truthy key then a else b) hh) as [es' r']
      end.
      exists es', r'. reflexivity.
    + exists [], (Raise e). reflexivity.
  - intros Hhttps. destruct (prefix_app _ _ Hhttps) as [rest ->].
    assert (Hrun : add_source E (PyStr ("https:" ++ rest)) key hist =
                   (if truthy key
                    then subprocess E CheckCall
                           [PyStr "apt-key"; PyStr "import"; key] hist
                    else ([], Ok tt))).
    { unfold add_source.
      change (String.prefix "ppa:" ("https:" ++ rest)
              || String.prefix "http:" ("https:" ++ rest)) with false.
      change (String.prefix "cloud:" ("https:" ++ rest)) with false.
      change (String.eqb ("https:" ++ rest) "proposed") with false.
      cbv iota. rewrite bind_ret. now destruct (truthy key). }
    split; [exact Hrun|].
    intros ev. rewrite Hrun. destruct (truthy key).
    + destruct (subprocess_events E CheckCall
                  [PyStr "apt-key"; PyStr "import"; key] hist) as [r ->].
      simpl. intros [<-|[]]. reflexivity.
    + simpl. contradiction.
Qed.

Lemma add_source_ppa_http_witness :
  (exists es r,
     add_source (quiet_env [])
       (PyStr "http://archive.ubuntu.com/ubuntu raring-backports main")
       (PyStr "akey") [] =
     (repository_add "http://archive.ubuntu.com/ubuntu raring-backports main"
        :: es, r))
  /\ add_source (quiet_env [])
       (PyStr "https://archive.example.com/ubuntu precise main")
       (PyStr "akey") [] =
     ([EvSubprocess CheckCall [PyStr "apt-key"; PyStr "import"; PyStr "akey"]],
      Ok tt).
Proof.
  split.
  - apply (proj1 (add_source_ppa_http (quiet_env [])
                    "http://archive.ubuntu.com/ubuntu raring-backports main"
                    (PyStr "akey") [])).
    right. reflexivity.
  - exact (proj1 (proj2 (add_source_ppa_http (quiet_env [])
                           "https://archive.example.com/ubuntu precise main"
                           (PyStr "akey") []) eq_refl)).
Defined.

(** C7, as the specification words it, fails for [https:]: such a source
    matches no branch of [add_source], and no tool is invoked. *)
Lemma add_source_https_is_ignored :
  add_source (quiet_env [])
             (PyStr "https://archive.example.com/ubuntu precise main") PyNone [] =
  ([], Ok tt)
  /\ ~ adds_repository_for_http_and_https (quiet_env []).
Proof.
  split; [reflexivity|].
  intros Hall.
  specialize (Hall "https://archive.example.com/ubuntu precise main" PyNone []).
  simpl in Hall. apply Hall. right. right. reflexivity.
Qed.

(** ** URLs *)

Section UrlStrings.

Import Urlparse.
Local Open Scope string_scope.
















End UrlStrings.

(** Path parameters come before the query string and stay with the path. *)
Example base_url_keeps_params :
  BaseFetchHandler.base_url "http://example.com/foo;type=a?bar=baz#blarg"
  = Ok "http://example.com/foo;type=a".
Proof. reflexivity. Qed.

(** ** The cases of the test suite, run on the model *)

Example test_filter_packages_missing :
  filter_installed_packages test_env ["vim"; "emacs"] [] = ([], Ok ["emacs"]).
Proof. reflexivity. Qed.

Example test_filter_packages_none_missing :
  filter_installed_packages test_env ["vim"] [] = ([], Ok []).
Proof. reflexivity. Qed.

Example test_filter_packages_not_available :
  filter_installed_packages test_env ["vim"; "joe"] [] =
  ([EvLog "Package joe has no installation candidate." (Some "WARNING")],
   Ok ["joe"]).
Proof. reflexivity. Qed.

Example test_add_source_ppa :
  add_source test_env (PyStr "ppa:test-ppa") PyNone [] =
  ([EvSubprocess CheckCall
      [PyStr "add-apt-repository"; PyStr "--yes"; PyStr "ppa:test-ppa"]],
   Ok tt).
Proof. reflexivity. Qed.

Example test_add_source_http_and_key :
  add_source test_env
    (PyStr "http://archive.ubuntu.com/ubuntu raring-backports main")
    (PyStr "akey") [] =
  ([EvSubprocess CheckCall
      [PyStr "add-apt-repository"; PyStr "--yes";
       PyStr "http://archive.ubuntu.com/ubuntu raring-backports main"];
    EvSubprocess CheckCall [PyStr "apt-key"; PyStr "import"; PyStr "akey"]],
   Ok tt).
Proof. reflexivity. Qed.

Example test_add_source_cloud :
  add_source test_env (PyStr "cloud:havana-updates") PyNone [] =
  ([EvLog "Package ubuntu-cloud-keyring has no installation candidate."
          (Some "WARNING");
    EvLog "Installing ['ubuntu-cloud-keyring'] with options: []" None;
    EvSubprocess CheckCall
      [PyStr "apt-get"; PyStr "-y"; PyStr "install";
       PyStr "ubuntu-cloud-keyring"];
    EvWrite "/etc/apt/sources.list.d/cloud-archive.list"
      ("# Ubuntu Cloud Archive" ++ nl
       ++ "deb http://ubuntu-cloud.archive.canonical.com/ubuntu havana-updates main"
       ++ nl)],
   Ok tt).
Proof. reflexivity. Qed.

Example test_add_source_proposed :
  add_source test_env (PyStr "proposed") PyNone [] =
  ([EvWrite "/etc/apt/sources.list.d/proposed.list"
      ("# Proposed" ++ nl
       ++ "deb http://archive.ubuntu.com/ubuntu precise-proposed main universe multiverse restricted"
       ++ nl)],
   Ok tt).
Proof. reflexivity. Qed.

Example test_installs_apt_packages :
  apt_install test_env (Packages ["foo"; "bar"]) (Some ["--foo"; "--bar"]) false [] =
  ([EvLog "Installing ['foo', 'bar'] with options: ['--foo', '--bar']" None;
    EvSubprocess Call
      [PyStr "apt-get"; PyStr "-y"; PyStr "--foo"; PyStr "--bar";
       PyStr "install"; PyStr "foo"; PyStr "bar"]],
   Ok tt).
Proof. reflexivity. Qed.

Example test_installs_apt_packages_as_string :
  apt_install test_env (OnePackage "foo bar") (Some ["--foo"; "--bar"]) false [] =
  ([EvLog "Installing foo bar with options: ['--foo', '--bar']" None;
    EvSubprocess Call
      [PyStr "apt-get"; PyStr "-y"; PyStr "--foo"; PyStr "--bar";
       PyStr "install"; PyStr "foo bar"]],
   Ok tt).
Proof. reflexivity. Qed.

Example test_purges_apt_packages_nofatal :
  apt_purge test_env (Packages ["foo"; "bar"]) false [] =
  ([EvLog "Purging ['foo', 'bar']" None;
    EvSubprocess Call
      [PyStr "apt-get"; PyStr "-y"; PyStr "purge"; PyStr "foo"; PyStr "bar"]],
   Ok tt).
Proof. reflexivity. Qed.

Example test_apt_update_fatal :
  apt_update test_env true [] =
  ([EvSubprocess CheckCall [PyStr "apt-get"; PyStr "update"]], Ok tt).
Proof. reflexivity. Qed.

Example test_skips_and_logs_missing_plugins :
  exists third,
    plugins find_class_of_test (Some ["a.foo"; "b.foo"; "c.foo"]) [] =
    ([EvLog "FetchHandler a.foo not found, skipping plugin" None;
      EvLog "FetchHandler b.foo not found, skipping plugin" None],
     Ok [third])
    /\ hname third = "c.foo".
Proof. eexists. split; reflexivity. Qed.

Example test_handles_nothing :
  forall url, is_True (BaseFetchHandler.can_handle url) = false.
Proof. reflexivity. Qed.

Example test_install_throws_unhandled :
  install_remote (ret [BaseFetchHandler.handler]) "garbage" [] =
  ([EvCanHandle BaseFetchHandler.handler "garbage"],
   Raise (UnhandledSource "No handler found for source garbage")).
Proof. reflexivity. Qed.

(** * Further properties *)

(** ** The dispatcher *)

Section DispatchMore.

Variable source : string.

Let attempt (handler : Handler) (installed_to : pyval) : M pyval :=
  except_UnhandledSource
    (emit (EvInstall handler source) ;; lift (install handler source))
    (ret installed_to).

Lemma attempt_fails h acc hist e :
  install h source = Raise e ->
  (forall m, e <> UnhandledSource m) ->
  attempt h acc hist = ([EvInstall h source], Raise e).
Proof.
  intros H Hne. unfold attempt, except_UnhandledSource, bind, emit, lift.
  rewrite H. destruct e; try reflexivity. now destruct (Hne msg).
Qed.

Lemma attempt_never_unhandled h acc hist es m :
  attempt h acc hist <> (es, Raise (UnhandledSource m)).
Proof.
  unfold attempt, except_UnhandledSource, bind, emit, lift, ret.
  destruct (install h source) as [v|[]]; simpl; congruence.
Qed.

Lemma attempt_one_call h acc hist :
  exists r, attempt h acc hist = ([EvInstall h source], r).
Proof. exact (attempt_events source h acc hist). Qed.

(** The calls of the loop are those of a prefix of the handlers, all of
    them unless an error came out. *)
Lemma loop_prefix handlers : forall acc hist es r,
  for_fold handlers acc attempt hist = (es, r) ->
  exists n,
    es = map (fun h => EvInstall h source) (firstn n handlers)
    /\ (forall m, r <> Raise (UnhandledSource m))
    /\ ((exists v, r = Ok v) -> n = List.length handlers).
Proof.
  induction handlers as [|h rest IH]; intros acc hist es r Hrun.
  - inversion Hrun; subst. exists 0.
    split; [reflexivity|]. split; [discriminate|reflexivity].
  - simpl in Hrun. unfold bind in Hrun.
    destruct (attempt h acc hist) as [es1 r1] eqn:Hr1.
    destruct (attempt_one_call h acc hist) as [r1' Hr1'].
    rewrite Hr1 in Hr1'. injection Hr1' as -> <-.
    destruct r1 as [acc'|e].
    + destruct (for_fold rest acc' attempt (hist ++ [EvInstall h source]))
        as [es' r'] eqn:Hrest.
      injection Hrun as <- <-.
      destruct (IH _ _ _ _ Hrest) as [n [-> [Hne Hall]]].
      exists (S n). split; [reflexivity|]. split; [exact Hne|].
      intros Hv. simpl. now rewrite (Hall Hv).
    + injection Hrun as <- <-. exists 1. simpl.
      split; [reflexivity|]. split.
      * intros m Hm. injection Hm as ->.
        exact (attempt_never_unhandled h acc hist _ m Hr1).
      * intros [v Hv]. discriminate.
Qed.

(** What the loop hands back is the starting value or what some handler of
    the list returned. *)
Lemma loop_value handlers : forall acc hist es v,
  for_fold handlers acc attempt hist = (es, Ok v) ->
  v = acc \/ exists h, In h handlers /\ install h source = Ok v.
Proof.
  induction handlers as [|h rest IH]; intros acc hist es v Hrun.
  - inversion Hrun; subst. now left.
  - simpl in Hrun. unfold bind in Hrun.
    destruct (attempt h acc hist) as [es1 [acc'|e]] eqn:Hr1; [|discriminate].
    destruct (for_fold rest acc' attempt (hist ++ es1)) as [es' r'] eqn:Hrest.
    injection Hrun as <- ->.
    assert (Hacc : acc' = acc \/ install h source = Ok acc').
    { revert Hr1. unfold attempt, except_UnhandledSource, bind, emit, lift, ret.
      destruct (install h source) as [w|[]]; simpl; intros Hr1;
        try discriminate; injection Hr1 as _ <-; auto. }
    destruct (IH _ _ _ _ Hrest) as [->|[h' [Hin Hv]]].
    + destruct Hacc as [->|Hh]; [now left|].
      right. exists h. split; [now left|assumption].
    + right. exists h'. split; [now right|assumption].
Qed.

End DispatchMore.

(** X1: an exception other than [UnhandledSource] raised by a handler's
    [install] leaves [install_remote] at once: the handlers after it never
    have [install] called, and a path an earlier handler returned is lost. *)
Theorem install_remote_error_aborts
    (plugins : M (list Handler)) (source : string) (hist es0 : list event)
    (hs pre post : list Handler) (h : Handler) (e : exn) :
  plugins hist = (es0, Ok hs) ->
  eligible hs source = pre ++ h :: post ->
  Forall (returns_or_unhandled source) pre ->
  install h source = Raise e ->
  (forall m, e <> UnhandledSource m) ->
  install_remote plugins source hist =
  (es0 ++ map (fun h => EvCanHandle h source) hs
       ++ map (fun h => EvInstall h source) pre ++ [EvInstall h source],
   Raise e).
Proof.
  intros Hp Hel Hpre Hi Hne.
  rewrite (install_remote_run source plugins hist es0 hs Hp). cbv zeta.
  rewrite Hel.
  rewrite (loop_app source pre (h :: post) PyNone _ Hpre).
  simpl for_fold.
  match goal with
  | |- context [bind ?a ?k ?hh] =>
      pose proof (attempt_fails source h (last_returned source pre PyNone)
                    hh e Hi Hne) as Hf;
      unfold bind at 1
  end.
  cbv zeta in Hf. rewrite Hf. reflexivity.
Qed.

Lemma install_remote_error_aborts_witness :
  install_remote (ret [installing; crashing; installing_elsewhere])
                 "http://example.com/foo.tgz" [] =
  ([] ++ map (fun h => EvCanHandle h "http://example.com/foo.tgz")
             [installing; crashing; installing_elsewhere]
      ++ map (fun h => EvInstall h "http://example.com/foo.tgz") [installing]
      ++ [EvInstall crashing "http://example.com/foo.tgz"],
   Raise (OtherError "IOError" "disk full")).
Proof.
  apply (install_remote_error_aborts
           (ret [installing; crashing; installing_elsewhere])
           "http://example.com/foo.tgz" [] []
           [installing; crashing; installing_elsewhere]
           [installing] [installing_elsewhere] crashing).
  - reflexivity.
  - reflexivity.
  - repeat constructor.
  - reflexivity.
  - discriminate.
Defined.

(** X2: in every run of [install_remote] in which each [can_handle]
    answers (it returns [True] or anything else and does not raise),
    whatever [install] does, each handler of the plugin list is asked
    [can_handle] in list order before any [install]; the [install] calls
    that follow are those of an initial part of the eligible handlers, in
    order; and when [install_remote] returns or raises [UnhandledSource],
    every eligible handler has had [install] called. *)
Theorem install_remote_call_order
    (plugins : M (list Handler)) (source : string) (hist es0 es : list event)
    (hs : list Handler) (r : result pyval) :
  plugins hist = (es0, Ok hs) ->
  install_remote plugins source hist = (es, r) ->
  exists n,
    es = es0 ++ map (fun h => EvCanHandle h source) hs
             ++ map (fun h => EvInstall h source)
                    (firstn n (eligible hs source))
    /\ ((exists v, r = Ok v) \/ (exists m, r = Raise (UnhandledSource m)) ->
        n = List.length (eligible hs source)).
Proof.
  intros Hp Hrun.
  rewrite (install_remote_run source plugins hist es0 hs Hp) in Hrun.
  cbv zeta in Hrun.
  match type of Hrun with
  | context [for_fold ?l ?a ?b ?hh] =>
      destruct (for_fold l a b hh) as [es' r'] eqn:Hloop
  end.
  destruct (loop_prefix source _ _ _ _ _ Hloop) as [n [-> [Hne Hall]]].
  injection Hrun as <- <-.
  exists n. split; [reflexivity|].
  intros Hr. apply Hall. destruct r' as [v|e]; [now exists v|].
  destruct Hr as [[v Hv]|[m Hm]]; [discriminate|].
  injection Hm as ->. now destruct (Hne m).
Qed.

Lemma install_remote_call_order_witness :
  exists n,
    [EvCanHandle declining "lp:foo"; EvCanHandle giving_up "lp:foo";
     EvCanHandle installing "lp:foo";
     EvInstall giving_up "lp:foo"; EvInstall installing "lp:foo"]
    = [] ++ map (fun h => EvCanHandle h "lp:foo") [declining; giving_up; installing]
         ++ map (fun h => EvInstall h "lp:foo")
                (firstn n (eligible [declining; giving_up; installing] "lp:foo"))
    /\ ((exists v, Ok (PyStr "foo") = Ok v)
        \/ (exists m, Ok (PyStr "foo") = Raise (UnhandledSource m)) ->
        n = List.length (eligible [declining; giving_up; installing] "lp:foo")).
Proof.
  exact (install_remote_call_order
           (ret [declining; giving_up; installing]) "lp:foo" [] [] _
           [declining; giving_up; installing] (Ok (PyStr "foo"))
           eq_refl eq_refl).
Defined.

(** X3: a value [install_remote] returns is never empty, and it is what
    the [install] of some handler of the plugin list returned, a handler
    whose [can_handle] answered [True]. *)
Theorem install_remote_returns_installed_path
    (plugins : M (list Handler)) (source : string) (hist es0 es : list event)
    (hs : list Handler) (v : pyval) :
  plugins hist = (es0, Ok hs) ->
  install_remote plugins source hist = (es, Ok v) ->
  truthy v = true
  /\ exists h, In h hs /\ can_handle h source = PyBool true
               /\ install h source = Ok v.
Proof.
  intros Hp Hrun.
  rewrite (install_remote_run source plugins hist es0 hs Hp) in Hrun.
  cbv zeta in Hrun.
  match type of Hrun with
  | context [for_fold ?l ?a ?b ?hh] =>
      destruct (for_fold l a b hh) as [es' [w|e]] eqn:Hloop
  end; [|discriminate].
  destruct (truthy w) eqn:Hw; simpl in Hrun; [|discriminate].
  injection Hrun as _ <-. split; [assumption|].
  destruct (loop_value source _ _ _ _ _ Hloop) as [->|[h [Hin Hv]]];
    [discriminate|].
  apply eligible_In in Hin. destruct Hin as [Hin Hc].
  now exists h.
Qed.

Lemma install_remote_returns_installed_path_witness :
  truthy (PyStr "foo") = true
  /\ exists h, In h [declining; giving_up; installing]
               /\ can_handle h "lp:foo" = PyBool true
               /\ install h "lp:foo" = Ok (PyStr "foo").
Proof.
  exact (install_remote_returns_installed_path
           (ret [declining; giving_up; installing]) "lp:foo" [] [] _
           [declining; giving_up; installing] (PyStr "foo")
           eq_refl eq_refl).
Defined.

(** ** Loading the plugins *)

Lemma for_fold_app {A S} (body : A -> S -> M S) (xs : list A) :
  forall (ys : list A) (acc acc' : S) hist es,
  for_fold xs acc body hist = (es, Ok acc') ->
  for_fold (xs ++ ys) acc body hist =
  (let (es', r) := for_fold ys acc' body (hist ++ es) in (es ++ es', r)).
Proof.
  induction xs as [|x xs IH]; intros ys acc acc' hist es Hrun.
  - injection Hrun as <- <-. simpl. rewrite app_nil_r.
    now destruct (for_fold ys acc body hist).
  - simpl in Hrun. simpl app. simpl for_fold. unfold bind in *.
    destruct (body x acc hist) as [es1 [acc1|e]]; [|discriminate].
    destruct (for_fold xs acc1 body (hist ++ es1)) as [es2 r2] eqn:Hxs.
    injection Hrun as <- ->.
    rewrite (IH ys acc1 acc' (hist ++ es1) es2 Hxs).
    rewrite <- (app_assoc hist es1 es2).
    destruct (for_fold ys acc' body (hist ++ es1 ++ es2)).
    now rewrite app_assoc.
Qed.

Lemma rsplit_last_None c s :
  str_contains c s = false -> rsplit_last c s = None.
Proof.
  induction s as [|x s IH]; simpl; [reflexivity|].
  intros H. apply orb_false_iff in H. destruct H as [Hx Hs].
  now rewrite (IH Hs), Hx.
Qed.

Lemma rsplit_last_dotted c l r :
  str_contains c r = false ->
  rsplit_last c (l ++ String c r)%string = Some (l, r).
Proof.
  intros Hr. induction l as [|x l IH]; simpl.
  - now rewrite (rsplit_last_None c r Hr), Ascii.eqb_refl.
  - now rewrite IH.
Qed.

Section Plugins.

Variable find_class : string -> string -> result Handler.

(** One turn of the loop of [plugins]. *)
Let turn (handler_name : string) (plugin_list : list Handler)
  : M (list Handler) :=
  match rsplit_last "."%char handler_name with
  | None => raise (ValueError "need more than 1 value to unpack")
  | Some (package, classname) =>
      match find_class package classname with
      | Ok handler => ret (plugin_list ++ [handler])
      | Raise e =>
          if missing_plugin e then
            log ("FetchHandler " ++ handler_name ++ " not found, skipping plugin") None ;;
            ret plugin_list
          else raise e
      end
  end.

Lemma turn_dotted package classname plugin_list hist :
  str_contains "." classname = false ->
  turn (dotted_name (package, classname)) plugin_list hist =
  match find_class package classname with
  | Ok handler => ([], Ok (plugin_list ++ [handler]))
  | Raise e =>
      if missing_plugin e
      then ([not_found_log (dotted_name (package, classname))], Ok plugin_list)
      else ([], Raise e)
  end.
Proof.
  intros Hdot. unfold turn, dotted_name. cbn [fst snd].
  change (package ++ "." ++ classname)%string
    with (package ++ String "."%char classname)%string.
  rewrite (rsplit_last_dotted "." package classname Hdot).
  destruct (find_class package classname) as [h|e]; [reflexivity|].
  now destruct (missing_plugin e).
Qed.

Lemma plugins_loop refs : forall acc hist,
  Forall (fun ref => str_contains "." (snd ref) = false) refs ->
  Forall (resolves_or_is_missing find_class) refs ->
  for_fold (map dotted_name refs) acc turn hist =
  (map not_found_log (missing_names find_class refs),
   Ok (acc ++ found_handlers find_class refs)).
Proof.
  induction refs as [|[package classname] rest IH]; intros acc hist Hall Hres.
  - simpl. now rewrite app_nil_r.
  - inversion Hall as [|? ? Hdot Hrest]; subst. simpl in Hdot.
    inversion Hres as [|? ? Hone Hothers]; subst.
    unfold resolves_or_is_missing in Hone. simpl in Hone.
    simpl map. simpl for_fold. unfold bind at 1.
    rewrite (turn_dotted package classname acc hist Hdot).
    unfold missing_names, found_handlers. simpl filter. simpl flat_map.
    destruct (find_class package classname) as [h|e].
    + rewrite IH by assumption.
      unfold missing_names, found_handlers. simpl. now rewrite <- app_assoc.
    + rewrite Hone. rewrite IH by assumption. reflexivity.
Qed.

Lemma plugins_run refs hist :
  refs <> [] ->
  Forall (fun ref => str_contains "." (snd ref) = false) refs ->
  Forall (resolves_or_is_missing find_class) refs ->
  plugins find_class (Some (map dotted_name refs)) hist =
  (map not_found_log (missing_names find_class refs),
   Ok (found_handlers find_class refs)).
Proof.
  intros Hne Hall Hres. unfold plugins.
  destruct refs as [|ref rest]; [congruence|].
  exact (plugins_loop (ref :: rest) [] hist Hall Hres).
Qed.

(** X5: when the loop of [plugins] reaches a handler reference without a
    dot it raises [ValueError], and when it reaches one whose resolution
    raises anything but [ImportError] or [AttributeError] it raises that
    exception (the references before it each resolving or failing with one
    of these two): the instances made so far are not returned, and the
    references after it are not looked at. *)
Theorem plugins_stops_at_bad_reference
    (refs : list (string * string)) (rest : list string) (hist : list event) :
  Forall (fun ref => str_contains "." (snd ref) = false) refs ->
  Forall (resolves_or_is_missing find_class) refs ->
  (forall bad,
     str_contains "." bad = false ->
     plugins find_class (Some (map dotted_name refs ++ bad :: rest)) hist =
     (map not_found_log (missing_names find_class refs),
      Raise (ValueError "need more than 1 value to unpack")))
  /\ (forall package classname e,
        str_contains "." classname = false ->
        find_class package classname = Raise e ->
        missing_plugin e = false ->
        plugins find_class
          (Some (map dotted_name refs ++ dotted_name (package, classname) :: rest))
          hist =
        (map not_found_log (missing_names find_class refs), Raise e)).
Proof.
  intros Hall Hres.
  assert (Hlist : forall name,
            match map dotted_name refs ++ name :: rest with
            | [] => FETCH_HANDLERS
            | h :: hs => h :: hs
            end = map dotted_name refs ++ name :: rest).
  { intros name. now destruct (map dotted_name refs). }
  split.
  - intros bad Hbad. unfold plugins. rewrite Hlist. fold turn.
    rewrite (for_fold_app turn _ _ _ _ _ _ (plugins_loop refs [] hist Hall Hres)).
    simpl for_fold. unfold turn at 1. rewrite (rsplit_last_None "." bad Hbad).
    unfold bind, raise. now rewrite app_nil_r.
  - intros package classname e Hdot Hfail Hother.
    unfold plugins. rewrite Hlist. fold turn.
    rewrite (for_fold_app turn _ _ _ _ _ _ (plugins_loop refs [] hist Hall Hres)).
    simpl for_fold. unfold bind at 1.
    rewrite (turn_dotted package classname _ _ Hdot), Hfail, Hother.
    now rewrite app_nil_r.
Qed.

End Plugins.

Lemma found_missing_count find_class refs :
  List.length (found_handlers find_class refs)
  + List.length (missing_names find_class refs) = List.length refs.
Proof.
  unfold found_handlers, missing_names. rewrite length_map.
  induction refs as [|ref rest IH]; [reflexivity|]. simpl.
  destruct (find_class (fst ref) (snd ref)); simpl; lia.
Qed.

(** X4: given references [package.classname] (the class name being what
    follows the last dot), each of which resolves or fails with
    [ImportError] or [AttributeError], [plugins] returns the instances of
    those that resolve, in the order of the references, and logs one message
    for each that does not, naming it; it does not raise, and instances and
    messages together are as many as the references.  A missing or an empty
    list of references stands for the built-in list. *)
Theorem plugins_skips_missing
    (find_class : string -> string -> result Handler)
    (refs : list (string * string)) (hist : list event) :
  refs <> [] ->
  Forall (fun ref => str_contains "." (snd ref) = false) refs ->
  Forall (resolves_or_is_missing find_class) refs ->
  plugins find_class (Some (map dotted_name refs)) hist =
  (map not_found_log (missing_names find_class refs),
   Ok (found_handlers find_class refs))
  /\ List.length (found_handlers find_class refs)
     + List.length (missing_names find_class refs) = List.length refs
  /\ plugins find_class None hist = plugins find_class (Some FETCH_HANDLERS) hist
  /\ plugins find_class (Some []) hist
     = plugins find_class (Some FETCH_HANDLERS) hist.
Proof.
  intros Hne Hall Hres. split; [now apply plugins_run|].
  split; [apply found_missing_count|]. split; reflexivity.
Qed.

Lemma plugins_skips_missing_witness :
  let refs := [("a", "foo"); ("b", "foo"); ("pkg.sub", "Handler")] in
  plugins find_class_of_test (Some (map dotted_name refs)) [] =
  (map not_found_log (missing_names find_class_of_test refs),
   Ok (found_handlers find_class_of_test refs))
  /\ List.length (found_handlers find_class_of_test refs)
     + List.length (missing_names find_class_of_test refs) = List.length refs
  /\ plugins find_class_of_test None []
     = plugins find_class_of_test (Some FETCH_HANDLERS) []
  /\ plugins find_class_of_test (Some []) []
     = plugins find_class_of_test (Some FETCH_HANDLERS) [].
Proof.
  intros refs.
  apply (plugins_skips_missing find_class_of_test refs []).
  - discriminate.
  - repeat constructor.
  - repeat constructor.
Defined.

Lemma plugins_stops_at_bad_reference_witness :
  plugins find_class_checked
    (Some (map dotted_name [("a", "foo"); ("b", "foo")]
           ++ "ArchiveUrlFetchHandler" :: ["c.foo"])) [] =
  ([not_found_log "b.foo"],
   Raise (ValueError "need more than 1 value to unpack"))
  /\ plugins find_class_checked
       (Some (map dotted_name [("a", "foo"); ("b", "foo")]
              ++ dotted_name ("", "foo") :: ["c.foo"])) [] =
     ([not_found_log "b.foo"], Raise (ValueError "Empty module name")).
Proof.
  assert (Hdots : Forall (fun ref : string * string =>
                            str_contains "." (snd ref) = false)
                         [("a", "foo"); ("b", "foo")])
    by (repeat constructor).
  assert (Hres : Forall (resolves_or_is_missing find_class_checked)
                        [("a", "foo"); ("b", "foo")])
    by (repeat constructor).
  destruct (plugins_stops_at_bad_reference find_class_checked
              [("a", "foo"); ("b", "foo")] ["c.foo"] [] Hdots Hres)
    as [Hundotted Hother].
  split.
  - exact (Hundotted "ArchiveUrlFetchHandler" eq_refl).
  - exact (Hother "" "foo" (ValueError "Empty module name")
                  eq_refl eq_refl eq_refl).
Defined.

(** X6: when every configured handler reference fails to resolve with
    [ImportError] or [AttributeError], [install_remote] on the plugins so
    loaded logs one message for each reference, asks no handler and raises
    [UnhandledSource] naming the source, whatever the source is. *)
Theorem install_remote_without_plugins
    (find_class : string -> string -> result Handler)
    (refs : list (string * string)) (source : string) (hist : list event) :
  refs <> [] ->
  Forall (fun ref => str_contains "." (snd ref) = false) refs ->
  (forall ref, In ref refs ->
     exists e, find_class (fst ref) (snd ref) = Raise e
               /\ missing_plugin e = true) ->
  install_remote (plugins find_class (Some (map dotted_name refs))) source hist =
  (map not_found_log (map dotted_name refs),
   Raise (UnhandledSource ("No handler found for source " ++ source))).
Proof.
  intros Hne Hall Hnone.
  assert (Hres : Forall (resolves_or_is_missing find_class) refs).
  { apply Forall_forall. intros ref Hin.
    destruct (Hnone ref Hin) as [e [He Hm]].
    unfold resolves_or_is_missing. now rewrite He. }
  assert (Hfound : found_handlers find_class refs = []
                   /\ missing_names find_class refs = map dotted_name refs).
  { unfold found_handlers, missing_names. clear Hne Hall Hres.
    induction refs as [|ref rest IH]; [now split|]. simpl.
    destruct (Hnone ref (or_introl eq_refl)) as [e [He _]]. rewrite He. simpl.
    destruct IH as [-> ->]; [|now split].
    intros r Hr. apply Hnone. now right. }
  destruct Hfound as [Hf Hm].
  pose proof (plugins_run find_class refs hist Hne Hall Hres) as Hp.
  rewrite Hf, Hm in Hp.
  rewrite (install_remote_run source _ hist _ [] Hp). simpl.
  now rewrite !app_nil_r.
Qed.

Lemma install_remote_without_plugins_witness :
  install_remote
    (plugins (fun package _ => Raise (ImportError ("No module named " ++ package)))
       (Some (map dotted_name
                [("charmhelpers.fetch.archiveurl", "ArchiveUrlFetchHandler");
                 ("charmhelpers.fetch.bzrurl", "BzrUrlFetchHandler")])))
    "lp:branch" [] =
  (map not_found_log
     (map dotted_name
        [("charmhelpers.fetch.archiveurl", "ArchiveUrlFetchHandler");
         ("charmhelpers.fetch.bzrurl", "BzrUrlFetchHandler")]),
   Raise (UnhandledSource ("No handler found for source " ++ "lp:branch"))).
Proof.
  apply (install_remote_without_plugins
           (fun package _ => Raise (ImportError ("No module named " ++ package)))
           [("charmhelpers.fetch.archiveurl", "ArchiveUrlFetchHandler");
            ("charmhelpers.fetch.bzrurl", "BzrUrlFetchHandler")]
           "lp:branch" []).
  - discriminate.
  - repeat constructor.
  - intros ref _. eexists. split; reflexivity.
Defined.

(** ** Installing from the charm configuration *)

Lemma dict_get_missing d key :
  (forall v, ~ In (key, v) d) -> dict_get d key = Raise (KeyError key).
Proof.
  induction d as [|[k v] d IH]; intros Hno; [reflexivity|]. simpl.
  destruct (String.eqb k key) eqn:Hk.
  - apply String.eqb_eq in Hk. subst. destruct (Hno v). now left.
  - apply IH. intros w Hw. apply (Hno w). now right.
Qed.

Lemma dict_get_present d key v :
  NoDup (map fst d) -> In (key, v) d -> dict_get d key = Ok v.
Proof.
  induction d as [|[k w] d IH]; intros Hnd Hin; [contradiction|].
  simpl in *. inversion Hnd as [|? ? Hk Hd]; subst.
  destruct Hin as [Heq|Hin].
  - injection Heq as -> ->. now rewrite String.eqb_refl.
  - destruct (String.eqb k key) eqn:Hkk; [|now apply IH].
    apply String.eqb_eq in Hkk. subst. destruct Hk.
    change key with (fst (key, v)). now apply in_map.
Qed.

(** X7: [install_from_config] hands the configured value of the option to
    [install_remote] and returns what it returns; when the configuration
    has no such option it raises [KeyError] before the plugins are loaded
    or any handler is asked. *)
Theorem install_from_config_dispatches
    (config : M (list (string * string))) (plugins : M (list Handler))
    (config_var_name : string) (hist es0 : list event)
    (charm_config : list (string * string)) :
  config hist = (es0, Ok charm_config) ->
  NoDup (map fst charm_config) ->
  (forall source,
     In (config_var_name, source) charm_config ->
     install_from_config config plugins config_var_name hist =
     (let (es, r) := install_remote plugins source (hist ++ es0) in
      (es0 ++ es, r)))
  /\ ((forall source, ~ In (config_var_name, source) charm_config) ->
      install_from_config config plugins config_var_name hist =
      (es0, Raise (KeyError config_var_name))).
Proof.
  intros Hc Hnd. unfold install_from_config. split.
  - intros source Hin. rewrite (bind_Ok _ _ _ _ _ Hc).
    rewrite (dict_get_present _ _ _ Hnd Hin), bind_lift_Ok. reflexivity.
  - intros Hno. rewrite (bind_Ok _ _ _ _ _ Hc).
    rewrite (dict_get_missing _ _ Hno). unfold bind, lift.
    now rewrite app_nil_r.
Qed.

Lemma install_from_config_dispatches_witness :
  let cfg := [("foo", "http://example.com/foo.tgz"); ("bar", "lp:bar")] in
  let hs := [declining; giving_up; installing] in
  (forall source,
     In ("bar", source) cfg ->
     install_from_config (ret cfg) (ret hs) "bar" [] =
     (let (es, r) := install_remote (ret hs) source ([] ++ []) in
      ([] ++ es, r)))
  /\ ((forall source, ~ In ("bar", source) cfg) ->
      install_from_config (ret cfg) (ret hs) "bar" [] =
      ([], Raise (KeyError "bar"))).
Proof.
  intros cfg hs.
  apply (install_from_config_dispatches (ret cfg) (ret hs) "bar" [] [] cfg).
  - reflexivity.
  - repeat constructor; simpl; intuition discriminate.
Defined.

(** ** Package manager commands *)

Lemma argv_of_strings (l : list string) : argv_of (map PyStr l) = Some l.
Proof. induction l as [|s l IH]; simpl; [reflexivity|now rewrite IH]. Qed.

Lemma cmd_packages_names (p : packages_arg) :
  cmd_packages p = map PyStr (package_names p).
Proof. now destruct p. Qed.

(** A process run on a command of strings: one event, and the outcome that
    goes with the kind of call. *)
Lemma subprocess_run (E : Env) kind argv hist :
  subprocess E kind (map PyStr argv) hist =
  ([EvSubprocess kind (map PyStr argv)],
   let started := run_process E (hist ++ [EvSubprocess kind (map PyStr argv)]) argv in
   match kind with
   | Call => call_outcome started
   | CheckCall => check_call_outcome started argv
   end).
Proof.
  unfold subprocess. rewrite bind_emit, argv_of_strings. cbv zeta.
  unfold call_outcome, check_call_outcome.
  destruct (run_process E _ argv) as [status|e]; [|now destruct kind].
  destruct kind; [reflexivity|]. now destruct (Z.eqb status 0).
Qed.

(** X8: [apt_install] logs once and then runs
    [apt-get -y <options> install <packages>], the options (none when they
    are missing or empty) standing before [install]; run without [fatal] it
    returns normally whatever the exit status, run with [fatal] a non-zero
    status raises [CalledProcessError]. *)
Theorem apt_install_runs
    (E : Env) (packages : packages_arg) (options : option (list string))
    (fatal : bool) (hist : list event) :
  let opts := match options with Some l => l | None => [] end in
  let argv := "apt-get" :: "-y" :: opts ++ "install" :: package_names packages in
  let logged := EvLog ("Installing " ++ str_of_packages packages
                       ++ " with options: " ++ str_of_names opts) None in
  let run := EvSubprocess (if fatal then CheckCall else Call) (map PyStr argv) in
  let started := run_process E (hist ++ [logged; run]) argv in
  apt_install E packages options fatal hist =
  ([logged; run],
   if fatal then check_call_outcome started argv else call_outcome started).
Proof.
  intros opts argv logged run started. unfold apt_install.
  assert (Hopts : match options with
                  | Some (o :: os) => o :: os
                  | _ => []
                  end = opts).
  { unfold opts. now destruct options as [[|o os]|]. }
  rewrite Hopts. fold logged. unfold log. rewrite bind_emit.
  assert (Hcmd : [PyStr "apt-get"; PyStr "-y"] ++ map PyStr opts
                 ++ [PyStr "install"] ++ cmd_packages packages
                 = map PyStr argv).
  { unfold argv. rewrite cmd_packages_names. simpl.
    now rewrite map_app. }
  rewrite Hcmd.
  destruct fatal; rewrite subprocess_run; cbv zeta;
    unfold started, run; now rewrite <- app_assoc.
Qed.

(** X9: [apt_purge] logs once and runs [apt-get -y purge <packages>], and
    [apt_update] runs [apt-get update]; without [fatal] neither raises on a
    non-zero exit status, with [fatal] both raise [CalledProcessError]. *)
Theorem apt_purge_and_update_run
    (E : Env) (packages : packages_arg) (fatal : bool) (hist : list event) :
  (let argv := "apt-get" :: "-y" :: "purge" :: package_names packages in
   let logged := EvLog ("Purging " ++ str_of_packages packages) None in
   let run := EvSubprocess (if fatal then CheckCall else Call) (map PyStr argv) in
   let started := run_process E (hist ++ [logged; run]) argv in
   apt_purge E packages fatal hist =
   ([logged; run],
    if fatal then check_call_outcome started argv else call_outcome started))
  /\ (let argv := ["apt-get"; "update"] in
      let run := EvSubprocess (if fatal then CheckCall else Call) (map PyStr argv) in
      let started := run_process E (hist ++ [run]) argv in
      apt_update E fatal hist =
      ([run],
       if fatal then check_call_outcome started argv else call_outcome started)).
Proof.
  split.
  - intros argv logged run started. unfold apt_purge.
    fold logged. unfold log. rewrite bind_emit.
    assert (Hcmd : [PyStr "apt-get"; PyStr "-y"; PyStr "purge"]
                   ++ cmd_packages packages = map PyStr argv).
    { unfold argv. now rewrite cmd_packages_names. }
    rewrite Hcmd.
    destruct fatal; rewrite subprocess_run; cbv zeta;
      unfold started, run; now rewrite <- app_assoc.
  - intros argv run started. unfold apt_update.
    change [PyStr "apt-get"; PyStr "update"] with (map PyStr argv).
    destruct fatal; rewrite subprocess_run; reflexivity.
Qed.

(** ** Source registration, branch by branch *)

Lemma split_last_after c s :
  str_contains c s = true ->
  str_contains c (split_last c s) = false
  /\ exists front, s = (front ++ String c (split_last c s))%string.
Proof.
  induction s as [|a s IH]; intros H; [discriminate|]. simpl in *.
  destruct (str_contains c s) eqn:Hs.
  - destruct (IH eq_refl) as [Hno [front Hfront]]. split; [assumption|].
    exists (String a front). simpl. now rewrite <- Hfront.
  - rewrite orb_false_r in H. rewrite H. split; [assumption|].
    apply Ascii.eqb_eq in H. subst. now exists EmptyString.
Qed.

Lemma subprocess_check (E : Env) cmd argv hist :
  argv_of cmd = Some argv ->
  subprocess E CheckCall cmd hist =
  ([EvSubprocess CheckCall cmd],
   check_call_outcome
     (run_process E (hist ++ [EvSubprocess CheckCall cmd]) argv) argv).
Proof.
  intros Hargv. unfold subprocess. rewrite bind_emit, Hargv.
  unfold check_call_outcome.
  destruct (run_process E _ argv) as [status|e]; [|reflexivity].
  now destruct (Z.eqb status 0).
Qed.

(** X10: when the repository-add tool fails for a [ppa:] or [http:] source
    (it exits with a non-zero status or cannot be started), [add_source]
    raises that failure and the key is not imported. *)
Theorem add_source_tool_failure
    (E : Env) (source : string) (key : pyval) (hist : list event) (e : exn) :
  String.prefix "ppa:" source = true \/ String.prefix "http:" source = true ->
  check_call_outcome
    (run_process E (hist ++ [repository_add source])
                 ["add-apt-repository"; "--yes"; source])
    ["add-apt-repository"; "--yes"; source] = Raise e ->
  add_source E (PyStr source) key hist = ([repository_add source], Raise e).
Proof.
  intros Hpre Hfail.
  assert (Hb : String.prefix "ppa:" source || String.prefix "http:" source = true).
  { destruct Hpre as [->| ->]; [reflexivity|apply orb_true_r]. }
  unfold add_source. rewrite Hb. apply bind_Raise.
  rewrite (subprocess_check E _ ["add-apt-repository"; "--yes"; source])
    by reflexivity.
  unfold repository_add in Hfail. now rewrite Hfail.
Qed.

Lemma add_source_tool_failure_witness :
  add_source (world 1 (fun _ => None) [] []) (PyStr "ppa:test-ppa")
             (PyStr "akey") [] =
  ([repository_add "ppa:test-ppa"],
   Raise (CalledProcessError 1 ["add-apt-repository"; "--yes"; "ppa:test-ppa"])).
Proof.
  apply (add_source_tool_failure (world 1 (fun _ => None) [] [])
           "ppa:test-ppa" (PyStr "akey") []).
  - left. reflexivity.
  - reflexivity.
Defined.

(** X11: whenever [add_source] returns normally for a string source and a
    key that is true in a boolean context, the key is a string and its
    import by the key tool is the last thing that happened, whatever kind of
    source it was, an unrecognized one included. *)
Theorem add_source_imports_key_last
    (E : Env) (source : string) (key : pyval) (hist es : list event) :
  add_source E (PyStr source) key hist = (es, Ok tt) ->
  truthy key = true ->
  (exists k, key = PyStr k)
  /\ exists before, es = before ++ [key_import key].
Proof.
  intros Hrun Hkey. unfold add_source in Hrun. rewrite Hkey in Hrun.
  unfold bind at 1 in Hrun.
  match type of Hrun with
  | context [match ?branch hist with _ => _ end] =>
      destruct (branch hist) as [es1 [[]|e]]
  end; [|discriminate].
  destruct (subprocess_events E CheckCall
              [PyStr "apt-key"; PyStr "import"; key] (hist ++ es1)) as [r Hr].
  rewrite Hr in Hrun. injection Hrun as <- ->.
  split; [|now exists es1].
  destruct key as [| | |k| |]; try (now exists k);
    unfold subprocess in Hr; rewrite bind_emit in Hr; discriminate.
Qed.

Lemma add_source_imports_key_last_witness :
  (exists k, PyStr "akey" = PyStr k)
  /\ exists before,
       [key_import (PyStr "akey")] = before ++ [key_import (PyStr "akey")].
Proof.
  exact (add_source_imports_key_last (quiet_env [])
           "https://archive.example.com/ubuntu precise main" (PyStr "akey") []
           _ eq_refl eq_refl).
Defined.

(** X12: a string source that begins with none of [ppa:], [http:] and
    [cloud:] and is not [proposed] registers nothing: with a key that is
    false in a boolean context [add_source] does nothing at all and returns
    normally, with a non-empty string key all it does is to import the
    key. *)
Theorem add_source_unrecognized
    (E : Env) (source : string) (hist : list event) :
  String.prefix "ppa:" source = false ->
  String.prefix "http:" source = false ->
  String.prefix "cloud:" source = false ->
  source <> "proposed" ->
  (forall key, truthy key = false ->
     add_source E (PyStr source) key hist = ([], Ok tt))
  /\ (forall k, k <> "" ->
        add_source E (PyStr source) (PyStr k) hist =
        ([key_import (PyStr k)],
         check_call_outcome
           (run_process E (hist ++ [key_import (PyStr k)]) ["apt-key"; "import"; k])
           ["apt-key"; "import"; k])).
Proof.
  intros Hppa Hhttp Hcloud Hprop.
  apply String.eqb_neq in Hprop.
  unfold add_source. rewrite Hppa, Hhttp, Hcloud, Hprop. simpl orb. cbv iota.
  split.
  - intros key Hkey. rewrite Hkey. reflexivity.
  - intros k Hk. rewrite bind_ret.
    replace (truthy (PyStr k)) with true by (destruct k; [congruence|reflexivity]).
    now apply subprocess_check.
Qed.

Lemma add_source_unrecognized_witness :
  (forall key, truthy key = false ->
     add_source (quiet_env []) (PyStr "deb http://example.com/ubuntu main") key []
     = ([], Ok tt))
  /\ (forall k, k <> "" ->
        add_source (quiet_env []) (PyStr "deb http://example.com/ubuntu main")
                   (PyStr k) [] =
        ([key_import (PyStr k)],
         check_call_outcome
           (run_process (quiet_env []) ([] ++ [key_import (PyStr k)])
                        ["apt-key"; "import"; k])
           ["apt-key"; "import"; k])).
Proof.
  apply (add_source_unrecognized (quiet_env [])
           "deb http://example.com/ubuntu main" []);
    try reflexivity.
  discriminate.
Defined.

Lemma filter_installed_packages_run (E : Env) packages hist :
  filter_installed_packages E packages hist =
  (map no_candidate_warning
       (filter (absent_from_cache (apt_Cache E hist)) packages),
   Ok (filter (fun name => no_installed_version (apt_Cache E hist) name
                           || absent_from_cache (apt_Cache E hist) name)
              packages)).
Proof.
  unfold filter_installed_packages.
  exact (filter_loop (apt_Cache E hist) packages [] hist).
Qed.

Lemma apt_install_fatal_names (E : Env) names hist :
  let argv := "apt-get" :: "-y" :: "install" :: names in
  let logged := EvLog ("Installing " ++ str_of_names names
                       ++ " with options: []") None in
  let run := EvSubprocess CheckCall (map PyStr argv) in
  apt_install E (Packages names) None true hist =
  ([logged; run],
   check_call_outcome (run_process E (hist ++ [logged; run]) argv) argv).
Proof.
  intros argv logged run. unfold apt_install, log. rewrite bind_emit.
  change ([PyStr "apt-get"; PyStr "-y"] ++ map PyStr []
          ++ [PyStr "install"] ++ cmd_packages (Packages names))
    with (map PyStr argv).
  rewrite (subprocess_check E _ argv) by apply argv_of_strings.
  fold run. now rewrite <- app_assoc.
Qed.

(** X13: for a source that begins with [cloud:], [add_source] first has the
    keyring package installed with [fatal] set, running [apt-get -y install]
    even with no package name when the cache shows the keyring installed;
    if that fails nothing is written and the key is not imported; if it
    succeeds the cloud-archive list file is written for the pocket, which is
    the text after the last colon of the source. *)
Theorem add_source_cloud
    (E : Env) (source : string) (key : pyval) (hist : list event) :
  String.prefix "cloud:" source = true ->
  let cache := apt_Cache E hist in
  let keyring := ["ubuntu-cloud-keyring"] in
  let needed := filter (fun name => no_installed_version cache name
                                    || absent_from_cache cache name) keyring in
  let argv := "apt-get" :: "-y" :: "install" :: needed in
  let before :=
    map no_candidate_warning (filter (absent_from_cache cache) keyring)
    ++ [EvLog ("Installing " ++ str_of_names needed ++ " with options: []") None;
        EvSubprocess CheckCall (map PyStr argv)] in
  let installed := check_call_outcome (run_process E (hist ++ before) argv) argv in
  let path := "/etc/apt/sources.list.d/cloud-archive.list" in
  let pocket := split_last ":" source in
  (forall e, installed = Raise e ->
     add_source E (PyStr source) key hist = (before, Raise e))
  /\ (installed = Ok tt ->
      open_for_writing E (hist ++ before) path = Ok tt ->
      truthy key = false ->
      add_source E (PyStr source) key hist =
      (before ++ [EvWrite path (CLOUD_ARCHIVE pocket)], Ok tt))
  /\ str_contains ":" pocket = false
  /\ exists front, source = (front ++ ":" ++ pocket)%string.
Proof.
  intros Hcloud cache keyring needed argv before installed path pocket.
  destruct (prefix_app _ _ Hcloud) as [rest Hsrc].
  assert (Hother : String.prefix "ppa:" source || String.prefix "http:" source
                   = false) by now rewrite Hsrc.
  assert (Hcolon : str_contains ":" source = true) by now rewrite Hsrc.
  destruct (split_last_after ":" source Hcolon) as [Hpocket Hfront].
  pose proof (filter_installed_packages_run E keyring hist) as Hfilter.
  fold cache in Hfilter. fold needed in Hfilter.
  pose proof (apt_install_fatal_names E needed
                (hist ++ map no_candidate_warning
                           (filter (absent_from_cache cache) keyring)))
    as Hinstall.
  cbv zeta in Hinstall. fold argv in Hinstall.
  rewrite <- app_assoc in Hinstall. fold before in Hinstall.
  fold installed in Hinstall.
  unfold add_source. rewrite Hother, Hcloud.
  split; [|split; [|split; [exact Hpocket|exact Hfront]]].
  - intros e He. rewrite He in Hinstall.
    apply bind_Raise.
    rewrite (bind_Ok _ _ _ _ _ Hfilter).
    now rewrite (bind_Raise _ _ _ _ _ Hinstall).
  - intros Hok Hopen Hkey. rewrite Hok in Hinstall. rewrite Hkey.
    assert (Hbranch :
      (needed0 <- filter_installed_packages E keyring ;;
       apt_install E (Packages needed0) None true ;;
       write_file E path (CLOUD_ARCHIVE pocket)) hist =
      (before ++ [EvWrite path (CLOUD_ARCHIVE pocket)], Ok tt)).
    { rewrite (bind_Ok _ _ _ _ _ Hfilter).
      rewrite (bind_Ok _ _ _ _ _ Hinstall).
      unfold write_file, bind, emit.
      rewrite <- !app_assoc. fold before. rewrite Hopen.
      unfold before. now rewrite <- !app_assoc. }
    rewrite (bind_Ok _ _ _ _ _ Hbranch). unfold ret.
    now rewrite app_nil_r.
Qed.

Lemma add_source_cloud_witness :
  let E := world 0 (fun name =>
                      if String.eqb name "ubuntu-cloud-keyring"
                      then Some {| pkg_name := name; current_ver := Some "2012.08.14" |}
                      else None) [] [] in
  add_source E (PyStr "cloud:precise-updates/havana") PyNone [] =
  ([EvLog "Installing [] with options: []" None;
    EvSubprocess CheckCall [PyStr "apt-get"; PyStr "-y"; PyStr "install"];
    EvWrite "/etc/apt/sources.list.d/cloud-archive.list"
            (CLOUD_ARCHIVE "precise-updates/havana")], Ok tt).
Proof.
  intros E.
  destruct (add_source_cloud E "cloud:precise-updates/havana" PyNone []
              eq_refl) as [_ [Hwritten _]].
  exact (Hwritten eq_refl eq_refl eq_refl).
Defined.

(** X14: for the source [proposed], [add_source] raises [KeyError] and
    writes nothing when the release information has no [DISTRIB_CODENAME];
    when it has one, the proposed list file is written for that codename
    and, the key being false in a boolean context, nothing else happens. *)
Theorem add_source_proposed (E : Env) (key : pyval) (hist : list event) :
  let path := "/etc/apt/sources.list.d/proposed.list" in
  ((forall v, ~ In ("DISTRIB_CODENAME", v) (lsb_release E hist)) ->
   add_source E (PyStr "proposed") key hist =
   ([], Raise (KeyError "DISTRIB_CODENAME")))
  /\ (forall release,
        NoDup (map fst (lsb_release E hist)) ->
        In ("DISTRIB_CODENAME", release) (lsb_release E hist) ->
        open_for_writing E hist path = Ok tt ->
        truthy key = false ->
        add_source E (PyStr "proposed") key hist =
        ([EvWrite path (PROPOSED_POCKET release)], Ok tt)).
Proof.
  intros path. unfold add_source.
  change (String.prefix "ppa:" "proposed" || String.prefix "http:" "proposed")
    with false.
  change (String.prefix "cloud:" "proposed") with false.
  change (String.eqb "proposed" "proposed") with true.
  cbv iota. split.
  - intros Hno. apply bind_Raise. apply bind_Raise.
    now rewrite (dict_get_missing _ _ Hno).
  - intros release Hnd Hin Hopen Hkey. rewrite Hkey.
    unfold write_file, bind, emit, ret.
    rewrite (dict_get_present _ _ _ Hnd Hin).
    rewrite !app_nil_r. fold path. now rewrite Hopen.
Qed.

Lemma add_source_proposed_witness :
  add_source (world 0 (fun _ => None) [("DISTRIB_ID", "Ubuntu")] [])
             (PyStr "proposed") (PyStr "akey") [] =
  ([], Raise (KeyError "DISTRIB_CODENAME"))
  /\ add_source (world 0 (fun _ => None)
                   [("DISTRIB_ID", "Ubuntu"); ("DISTRIB_CODENAME", "precise")] [])
                (PyStr "proposed") PyNone [] =
     ([EvWrite "/etc/apt/sources.list.d/proposed.list"
               (PROPOSED_POCKET "precise")], Ok tt).
Proof.
  split.
  - apply (proj1 (add_source_proposed
                    (world 0 (fun _ => None) [("DISTRIB_ID", "Ubuntu")] [])
                    (PyStr "akey") [])).
    simpl. intros v [H|[]]. discriminate.
  - apply (proj2 (add_source_proposed
                    (world 0 (fun _ => None)
                       [("DISTRIB_ID", "Ubuntu"); ("DISTRIB_CODENAME", "precise")] [])
                    PyNone []) "precise").
    + repeat constructor; simpl; intuition discriminate.
    + right. left. reflexivity.
    + reflexivity.
    + reflexivity.
Defined.

(** ** Configuration-driven source setup: failures and odd values *)

Lemma for_each_stops {A} (body : A -> M unit) (pre : list A) :
  forall (x : A) (post : list A) hist es_pre es1 e,
  for_each pre body hist = (es_pre, Ok tt) ->
  body x (hist ++ es_pre) = (es1, Raise e) ->
  for_each (pre ++ x :: post) body hist = (es_pre ++ es1, Raise e).
Proof.
  induction pre as [|y pre IH]; intros x post hist es_pre es1 e Hpre Hx.
  - injection Hpre as <-. rewrite app_nil_r in Hx. simpl.
    now rewrite (bind_Raise _ _ _ _ _ Hx).
  - simpl in Hpre. simpl app. simpl for_each. unfold bind in *.
    destruct (body y hist) as [es0 [[]|e0]]; [|discriminate].
    destruct (for_each pre body (hist ++ es0)) as [es2 r2] eqn:Hrest.
    injection Hpre as <- ->.
    rewrite app_assoc in Hx.
    rewrite (IH x post (hist ++ es0) es2 es1 e Hrest Hx).
    now rewrite app_assoc.
Qed.

Lemma for_each_ext_In {A} (f g : A -> M unit) (xs : list A) : forall hist,
  (forall x h, In x xs -> f x h = g x h) ->
  for_each xs f hist = for_each xs g hist.
Proof.
  induction xs as [|x xs IH]; intros hist Hfg; [reflexivity|]. simpl.
  apply bind_ext.
  - apply Hfg. now left.
  - intros _ h. apply IH. intros y h' Hy. apply Hfg. now right.
Qed.

Lemma get_nth_error s : forall i,
  String.get i s = nth_error (list_ascii_of_string s) i.
Proof.
  induction s as [|c s IH]; intros [|i]; simpl; try reflexivity. apply IH.
Qed.

Lemma length_chars s : List.length (chars s) = String.length s.
Proof.
  unfold chars. rewrite length_map.
  induction s as [|c s IH]; simpl; [reflexivity|now rewrite IH].
Qed.

Lemma getitem_chars s i :
  i < String.length s ->
  py_getitem (PyStr s) i = py_getitem (PyList (chars s)) i.
Proof.
  intros Hi. unfold py_getitem, chars. rewrite get_nth_error, nth_error_map.
  destruct (nth_error (list_ascii_of_string s) i) eqn:Hn; [reflexivity|].
  apply nth_error_None in Hn.
  pose proof (length_chars s) as Hl. unfold chars in Hl.
  rewrite length_map in Hl. lia.
Qed.

(** X15: a call of [add_source] that raises ends [configure_sources] with
    that exception: the pairs after it are not added and the package index
    is not refreshed, even with [update] set; what the earlier calls did
    stays done. *)
Theorem configure_sources_failure_aborts
    (E : Env) (add_source : pyval -> pyval -> M unit) (update : bool)
    (sources_var keys_var : string) (hist : list event)
    (sources keys : list pyval) (pre post : list (pyval * pyval))
    (pair : pyval * pyval) (es_pre es1 : list event) (e : exn) :
  decoded_sources E hist sources_var (PyList sources) ->
  decoded_keys E hist keys_var (PyList keys) ->
  List.length sources = List.length keys ->
  combine sources keys = pre ++ pair :: post ->
  for_each pre (calling add_source) hist = (es_pre, Ok tt) ->
  calling add_source pair (hist ++ es_pre) = (es1, Raise e) ->
  configure_sources E add_source update sources_var keys_var hist =
  (es_pre ++ es1, Raise e).
Proof.
  intros Hs Hk Hlen Hsplit Hpre Hfail.
  rewrite (configure_sources_decoded E add_source update _ _ _ _ _ Hs Hk).
  cbv zeta. simpl is_basestring. simpl andb. cbv iota.
  apply bind_Raise.
  unfold py_len. rewrite !bind_lift_Ok.
  rewrite Hlen, Nat.eqb_refl. simpl negb. cbv iota. rewrite bind_ret.
  rewrite <- Hlen.
  transitivity (for_each (combine sources keys) (calling add_source) hist).
  { exact (index_loop add_source sources keys [] [] hist eq_refl Hlen). }
  rewrite Hsplit. now apply for_each_stops.
Qed.

Lemma configure_sources_failure_aborts_witness :
  let E := quiet_env
             [("install_sources", PyList [PyStr "ppa:a"; PyNone; PyStr "ppa:c"]);
              ("install_keys", PyList [PyNone; PyNone; PyNone])] in
  configure_sources E (add_source E) true "install_sources" "install_keys" [] =
  ([EvAddSource (PyStr "ppa:a") PyNone; repository_add "ppa:a"]
   ++ [EvAddSource PyNone PyNone],
   Raise (AttributeError "'NoneType' object has no attribute 'startswith'")).
Proof.
  intros E.
  apply (configure_sources_failure_aborts E (add_source E) true
           "install_sources" "install_keys" []
           [PyStr "ppa:a"; PyNone; PyStr "ppa:c"] [PyNone; PyNone; PyNone]
           [(PyStr "ppa:a", PyNone)] [(PyStr "ppa:c", PyNone)] (PyNone, PyNone)).
  - eexists. split; reflexivity.
  - right. eexists. split; [reflexivity|]. split; [discriminate|reflexivity].
  - reflexivity.
  - reflexivity.
  - reflexivity.
  - reflexivity.
Defined.

(** X16: a single string for the sources together with a list of keys is
    not taken as one source: the string is compared with the list by length
    and indexed like a list, so that [SourceConfigError] is raised when the
    number of its characters differs from the number of keys, and otherwise
    [add_source] is called once for each character with the key at the same
    index. *)
Theorem configure_sources_string_with_key_list
    (E : Env) (add_source : pyval -> pyval -> M unit) (update : bool)
    (sources_var keys_var : string) (hist : list event)
    (source : string) (keys : list pyval) :
  decoded_sources E hist sources_var (PyStr source) ->
  decoded_keys E hist keys_var (PyList keys) ->
  (String.length source <> List.length keys ->
   configure_sources E add_source update sources_var keys_var hist =
   ([], Raise (SourceConfigError
                 "Install sources and keys lists are different lengths")))
  /\ (String.length source = List.length keys ->
      configure_sources E add_source update sources_var keys_var hist =
      (for_each (combine (chars source) keys) (calling add_source) ;;
       if update then apt_update E true else ret tt) hist).
Proof.
  intros Hs Hk.
  rewrite (configure_sources_decoded E add_source update _ _ _ _ _ Hs Hk).
  cbv zeta. simpl is_basestring. simpl is_None. simpl orb. simpl andb.
  cbv iota. split.
  - intros Hlen. apply bind_Raise. unfold py_len. rewrite !bind_lift_Ok.
    apply Nat.eqb_neq in Hlen. rewrite Hlen. reflexivity.
  - intros Hlen. apply bind_ext; [|reflexivity].
    unfold py_len. rewrite !bind_lift_Ok.
    rewrite Hlen, Nat.eqb_refl. simpl negb. cbv iota. rewrite bind_ret.
    rewrite <- Hlen.
    assert (Hchars : List.length (chars source) = List.length keys)
      by now rewrite length_chars.
    transitivity
      (for_each (seq 0 (List.length (chars source)))
         (fun src_num =>
            src <- lift (py_getitem (PyList (chars source)) src_num) ;;
            key <- lift (py_getitem (PyList keys) src_num) ;;
            calling add_source (src, key)) hist).
    { rewrite length_chars. apply for_each_ext_In. intros i h Hi.
      apply in_seq in Hi. rewrite getitem_chars; [reflexivity|lia]. }
    exact (index_loop add_source (chars source) keys [] [] hist
             eq_refl Hchars).
Qed.

Lemma configure_sources_string_with_key_list_witness :
  let E := quiet_env [("install_sources", PyStr "ppa:foo");
                      ("install_keys", PyList [PyStr "a1b2c3d4"])] in
  let F := quiet_env [("install_sources", PyStr "ab");
                      ("install_keys", PyList [PyStr "k"; PyNone])] in
  configure_sources E patched_add_source false "install_sources" "install_keys" [] =
  ([], Raise (SourceConfigError
                "Install sources and keys lists are different lengths"))
  /\ configure_sources F patched_add_source false "install_sources" "install_keys" [] =
     ([EvAddSource (PyStr "a") (PyStr "k"); EvAddSource (PyStr "b") PyNone], Ok tt).
Proof.
  intros E F.
  assert (HsE : decoded_sources E [] "install_sources" (PyStr "ppa:foo")).
  { eexists. split; reflexivity. }
  assert (HkE : decoded_keys E [] "install_keys" (PyList [PyStr "a1b2c3d4"])).
  { right. eexists. split; [reflexivity|]. split; [discriminate|reflexivity]. }
  assert (HsF : decoded_sources F [] "install_sources" (PyStr "ab")).
  { eexists. split; reflexivity. }
  assert (HkF : decoded_keys F [] "install_keys" (PyList [PyStr "k"; PyNone])).
  { right. eexists. split; [reflexivity|]. split; [discriminate|reflexivity]. }
  split.
  - destruct (configure_sources_string_with_key_list E patched_add_source
                false "install_sources" "install_keys" [] _ _ HsE HkE)
      as [Hdiff _].
    apply Hdiff. simpl. lia.
  - destruct (configure_sources_string_with_key_list F patched_add_source
                false "install_sources" "install_keys" [] _ _ HsF HkF)
      as [_ Hsame].
    rewrite (Hsame eq_refl). reflexivity.
Defined.

(** X17: a sources value that is [None] (what an empty setting decodes
    to), a boolean or an integer makes [configure_sources] raise the
    [TypeError] of [len] on it, whatever the keys are; and with a string or
    a list for the sources, a keys value that is a boolean or an integer (a
    key id written as a number) raises the [TypeError] of [len] on the keys.
    In both cases [add_source] is not called. *)
Theorem configure_sources_value_without_len
    (E : Env) (add_source : pyval -> pyval -> M unit) (update : bool)
    (sources_var keys_var : string) (hist : list event)
    (sources keys : pyval) :
  decoded_sources E hist sources_var sources ->
  decoded_keys E hist keys_var keys ->
  (sources = PyNone \/ (exists b, sources = PyBool b)
   \/ (exists z, sources = PyInt z) ->
   configure_sources E add_source update sources_var keys_var hist =
   ([], Raise (TypeError ("object of type '" ++ type_name sources
                          ++ "' has no len()"))))
  /\ ((exists s, sources = PyStr s) \/ (exists l, sources = PyList l) ->
      (exists b, keys = PyBool b) \/ (exists z, keys = PyInt z) ->
      configure_sources E add_source update sources_var keys_var hist =
      ([], Raise (TypeError ("object of type '" ++ type_name keys
                             ++ "' has no len()")))).
Proof.
  intros Hs Hk.
  rewrite (configure_sources_decoded E add_source update _ _ _ _ _ Hs Hk).
  cbv zeta. split.
  - intros Hkind.
    assert (Hstr : is_basestring sources = false)
      by (destruct Hkind as [->|[[b ->]|[z ->]]]; reflexivity).
    rewrite Hstr. simpl andb. cbv iota.
    apply bind_Raise. apply bind_Raise.
    destruct Hkind as [->|[[b ->]|[z ->]]]; reflexivity.
  - intros Hsrc Hkeys.
    assert (Hcond : is_None keys || is_basestring keys = false)
      by (destruct Hkeys as [[b ->]|[z ->]]; reflexivity).
    rewrite Hcond, andb_false_r.
    apply bind_Raise.
    assert (Hlen : exists n, py_len sources = Ok n)
      by (destruct Hsrc as [[s0 ->]|[l ->]]; now eexists).
    destruct Hlen as [n ->]. rewrite bind_lift_Ok. apply bind_Raise.
    destruct Hkeys as [[b ->]|[z ->]]; reflexivity.
Qed.

Lemma configure_sources_value_without_len_witness :
  let E := charm_env [("install_sources", ""); ("install_keys", "a1b2c3d4")] in
  let F := charm_env [("install_sources", "ppa:foo");
                      ("install_keys", "12345678")] in
  configure_sources E (add_source E) true "install_sources" "install_keys" [] =
  ([], Raise (TypeError "object of type 'NoneType' has no len()"))
  /\ configure_sources F (add_source F) true "install_sources" "install_keys" [] =
     ([], Raise (TypeError "object of type 'int' has no len()")).
Proof.
  intros E F.
  assert (HsE : decoded_sources E [] "install_sources" PyNone).
  { exists (PyStr ""). split; reflexivity. }
  assert (HkE : decoded_keys E [] "install_keys" (PyStr "a1b2c3d4")).
  { right. exists (PyStr "a1b2c3d4").
    split; [reflexivity|]. split; [discriminate|reflexivity]. }
  assert (HsF : decoded_sources F [] "install_sources" (PyStr "ppa:foo")).
  { exists (PyStr "ppa:foo"). split; reflexivity. }
  assert (HkF : decoded_keys F [] "install_keys" (PyInt 12345678)).
  { right. exists (PyStr "12345678").
    split; [reflexivity|]. split; [discriminate|reflexivity]. }
  split.
  - destruct (configure_sources_value_without_len E (add_source E) true
                "install_sources" "install_keys" [] _ _ HsE HkE)
      as [Hsources _].
    apply Hsources. now left.
  - destruct (configure_sources_value_without_len F (add_source F) true
                "install_sources" "install_keys" [] _ _ HsF HkF)
      as [_ Hkeys].
    apply Hkeys; [left; now eexists|right; now eexists].
Defined.

(** ** Filtering twice *)

Lemma filter_absent_kept (cache : string -> option Package) packages :
  filter (absent_from_cache cache)
         (filter (fun name => no_installed_version cache name
                              || absent_from_cache cache name) packages)
  = filter (absent_from_cache cache) packages.
Proof.
  induction packages as [|p rest IH]; [reflexivity|]. simpl.
  destruct (absent_from_cache cache p) eqn:Ha.
  - rewrite orb_true_r. simpl. now rewrite Ha, IH.
  - rewrite orb_false_r.
    destruct (no_installed_version cache p); simpl; [now rewrite Ha|assumption].
Qed.

Lemma filter_needed_twice (cache : string -> option Package) packages :
  let needed name := no_installed_version cache name
                     || absent_from_cache cache name in
  filter needed (filter needed packages) = filter needed packages.
Proof.
  intros needed. induction packages as [|p rest IH]; [reflexivity|]. simpl.
  destruct (needed p) eqn:Hp; [|assumption]. simpl. now rewrite Hp, IH.
Qed.

(** X18: filtering what [filter_installed_packages] returned, against a
    cache that has not changed, returns the same list and logs the same
    warnings again: every name it returns still needs installation. *)
Theorem filter_installed_packages_idempotent
    (E : Env) (packages kept : list string) (hist hist' es : list event) :
  (forall name, apt_Cache E hist' name = apt_Cache E hist name) ->
  filter_installed_packages E packages hist = (es, Ok kept) ->
  filter_installed_packages E kept hist' = (es, Ok kept).
Proof.
  intros Hsame Hrun.
  rewrite filter_installed_packages_run in Hrun.
  injection Hrun as <- <-.
  rewrite filter_installed_packages_run.
  assert (Habs : forall l, filter (absent_from_cache (apt_Cache E hist')) l
                           = filter (absent_from_cache (apt_Cache E hist)) l).
  { intros l. apply filter_ext. intros name. unfold absent_from_cache.
    now rewrite Hsame. }
  assert (Hneed : forall l,
             filter (fun name => no_installed_version (apt_Cache E hist') name
                                 || absent_from_cache (apt_Cache E hist') name) l
             = filter (fun name => no_installed_version (apt_Cache E hist) name
                                   || absent_from_cache (apt_Cache E hist) name) l).
  { intros l. apply filter_ext. intros name.
    unfold no_installed_version, absent_from_cache. now rewrite Hsame. }
  rewrite Habs, Hneed, filter_absent_kept.
  now rewrite (filter_needed_twice (apt_Cache E hist) packages).
Qed.

Lemma filter_installed_packages_idempotent_witness :
  filter_installed_packages test_env ["emacs"; "joe"]
    [EvLog "Package joe has no installation candidate." (Some "WARNING")] =
  ([EvLog "Package joe has no installation candidate." (Some "WARNING")],
   Ok ["emacs"; "joe"]).
Proof.
  apply (filter_installed_packages_idempotent test_env
           ["vim"; "emacs"; "joe"] ["emacs"; "joe"] []).
  - reflexivity.
  - reflexivity.
Defined.

(** ** URLs that do not parse *)

Lemma split_rest_error scheme url e :
  Urlparse.split_rest scheme url = Raise e ->
  e = ValueError "Invalid IPv6 URL".
Proof.
  unfold Urlparse.split_rest.
  destruct (if String.eqb (Urlparse.upto 2 url) "//"
            then Urlparse._splitnetloc url 2 else (""%string, url))
    as [netloc rest].
  destruct (_ || _); [now intros [= <-]|].
  destruct (split_first "#" rest) as [[u f]|];
    [destruct (split_first "?" u) as [[u' q]|]
    |destruct (split_first "?" rest) as [[u' q]|]]; discriminate.
Qed.

Lemma urlparse_outcome url :
  (exists scheme netloc path params query fragment,
     Urlparse.urlparse url
     = Ok [scheme; netloc; path; params; query; fragment])
  \/ Urlparse.urlparse url = Raise (ValueError "Invalid IPv6 URL").
Proof.
  unfold Urlparse.urlparse.
  destruct (Urlparse.urlsplit url) as [r|e] eqn:Hsplit.
  - left. destruct (_ && _).
    + destruct (Urlparse._splitparams (Urlparse.sr_path r)) as [path params].
      now do 6 eexists.
    + now do 6 eexists.
  - right. f_equal. revert Hsplit. unfold Urlparse.urlsplit.
    destruct (Urlparse.find ":" url 0) as [[|i]|];
      try apply split_rest_error.
    destruct (String.eqb _ "http"); [apply split_rest_error|].
    destruct (Urlparse.str_forallb _ _); [|apply split_rest_error].
    destruct (_ || _); apply split_rest_error.
Qed.

(** X19: [base_url] raises exactly when parsing the URL raises, and then
    with the same exception, which is the [ValueError] for an unbalanced
    bracket in the host; putting the components together again never
    fails. *)
Theorem base_url_fails_with_parse (url : string) (e : exn) :
  (BaseFetchHandler.base_url url = Raise e
   <-> BaseFetchHandler.parse_url url = Raise e)
  /\ (BaseFetchHandler.base_url url = Raise e ->
      e = ValueError "Invalid IPv6 URL").
Proof.
  unfold BaseFetchHandler.base_url, BaseFetchHandler.parse_url.
  destruct (urlparse_outcome url)
    as [[scheme [netloc [path [params [query [fragment ->]]]]]]| ->].
  - simpl. split; [split|]; discriminate.
  - simpl. split; [split; intros [= <-]; reflexivity|]. now intros [= <-].
Qed.

Lemma base_url_fails_with_parse_witness :
  BaseFetchHandler.parse_url "http://[::1/foo?bar=baz"
  = Raise (ValueError "Invalid IPv6 URL")
  /\ ValueError "Invalid IPv6 URL" = ValueError "Invalid IPv6 URL".
Proof.
  destruct (base_url_fails_with_parse "http://[::1/foo?bar=baz"
              (ValueError "Invalid IPv6 URL")) as [[Hparse _] Hkind].
  split; [exact (Hparse eq_refl)|exact (Hkind eq_refl)].
Defined.

(** ** URLs of the usual shape *)

Section UrlShape.

Import Urlparse.
Local Open Scope string_scope.

























End UrlShape.





